(** * Prowler API: LittleHorse integration layer

    A shallow embedding of

    - [config/littlehorse.py]  (the engine client configuration),
    - [config/workflows.py]    (workflow definitions and their registration),
    - [tasks/littlehorse_workers.py] (the task handlers and worker start-up),

    together with the properties of the orchestration layer that are
    established on it.

    Python values that the code manipulates are kept as the code has them:
    dictionaries are [gmap string _], lists are [list], [None] is a
    constructor of the value type, and a raised exception is the [Raise]
    outcome of a computation in the state-and-exception monad [M]. *)

From Stdlib Require Import ZArith Bool List Lia Ascii.
From stdpp Require Import base option list gmap strings pretty.

Set Warnings "-register-all,-clear-no-such-hyp".


Local Open Scope string_scope.
Local Open Scope list_scope.
Local Open Scope Z_scope.

(** ** Python core: exceptions, logging, outcomes *)

Module Py.

(** An exception instance: its class name and [str(e)]. *)
Record exn := Exn { exn_class : string; exn_msg : string }.

(** [str(e)], as interpolated by [f"...{e}"]. *)
Definition str_exn (e : exn) : string := exn_msg e.

Inductive level := INFO | WARNING | ERROR.

(** One record emitted through the module-level [logger]. *)
Record log_record := Log { log_level : level; log_text : string }.

Inductive outcome (A : Type) : Type :=
| Return (a : A)
| Raise (e : exn).
Arguments Return {A} a.
Arguments Raise {A} e.

(** Computations over a world [W] that may raise. *)
Definition M (W A : Type) : Type := W -> outcome A * W.

Definition ret {W A} (a : A) : M W A := fun w => (Return a, w).

Definition raise {W A} (e : exn) : M W A := fun w => (Raise e, w).

Definition bind {W A B} (m : M W A) (k : A -> M W B) : M W B :=
  fun w =>
    match m w with
    | (Return a, w') => k a w'
    | (Raise e, w') => (Raise e, w')
    end.

(** [try: body / except Exception as e: handler e]. *)
Definition try_except {W A} (body : M W A) (handler : exn -> M W A) : M W A :=
  fun w =>
    match body w with
    | (Return a, w') => (Return a, w')
    | (Raise e, w') => handler e w'
    end.

(** Python truthiness of the values that occur in the configuration. *)
Inductive value :=
| PNone
| PStr (s : string)
| PInt (z : Z).

Definition truthy (v : value) : bool :=
  match v with
  | PNone => false
  | PStr s => negb (String.eqb s "")
  | PInt z => negb (z =? 0)
  end.

End Py.

Declare Scope py_scope.
Delimit Scope py_scope with py.
Notation "x <- c1 ;; c2" := (Py.bind c1 (fun x => c2))
  (at level 100, c1 at next level, right associativity) : py_scope.
Notation "c1 ;;; c2" := (Py.bind c1 (fun _ => c2))
  (at level 100, right associativity) : py_scope.

(** ** [config/littlehorse.py] *)

Module Config.
Import Py.

(** What [env("NAME", default=None)] returned: a string, or [None]. *)
Definition of_env (v : option string) : value :=
  match v with
  | Some s => PStr s
  | None => PNone
  end.

(** [dict.update] with a three-entry literal. *)
Definition update3 (k1 : string) (v1 : value) (k2 : string) (v2 : value)
    (k3 : string) (v3 : value) (d : gmap string value) : gmap string value :=
  <[k3 := v3]> (<[k2 := v2]> (<[k1 := v1]> d)).

(** The module-level dictionary, as a function of the five settings read
    from the environment ([config.env] itself lies outside this layer). *)
Definition LITTLEHORSE_CONFIG
    (LITTLEHORSE_API_HOST : string) (LITTLEHORSE_API_PORT : Z)
    (LITTLEHORSE_CA_CERT LITTLEHORSE_CLIENT_CERT LITTLEHORSE_CLIENT_KEY : option string)
    : gmap string value :=
  let cfg : gmap string value :=
    <["bootstrap_port" := PInt LITTLEHORSE_API_PORT]>
      (<["bootstrap_host" := PStr LITTLEHORSE_API_HOST]> ∅) in
  if truthy (of_env LITTLEHORSE_CA_CERT)
     && truthy (of_env LITTLEHORSE_CLIENT_CERT)
     && truthy (of_env LITTLEHORSE_CLIENT_KEY)
  then update3 "ca_cert" (of_env LITTLEHORSE_CA_CERT)
               "client_cert" (of_env LITTLEHORSE_CLIENT_CERT)
               "client_key" (of_env LITTLEHORSE_CLIENT_KEY) cfg
  else cfg.

(** A TLS path is provided when the setting holds a non-empty path. *)
Definition provided (v : option string) : Prop :=
  exists s, v = Some s /\ s <> "".

Definition tls_keys : gset string := {[ "ca_cert"; "client_cert"; "client_key" ]}.

End Config.

(** ** [config/workflows.py]: the workflow definitions *)

Module Workflows.
Import Py.

(** [littlehorse.VariableType]: the members the definitions use. *)
Inductive VariableType := STR | JSON_OBJ.

(** Literals that appear in the definitions; [[]] is [JList []]. *)
Inductive literal :=
| JStr (s : string)
| JList (l : list literal).

(** What a binding may refer to: [v.jsonpath(p)] on a declared workflow
    variable, [out.jsonpath(p)] on the output handle of an earlier node
    (identified by its position in the thread), or a literal. *)
Inductive expr :=
| VarPath (var : string) (path : string)
| NodePath (node : nat) (path : string)
| Lit (l : literal).

Record var_decl := VarDecl {
  var_name : string;
  var_type : VariableType;
  var_default : option literal
}.

(** The nodes a thread function appends through the [WorkflowSpec]. *)
Inductive node :=
| ExecuteTask (task : string) (kwargs : list (string * expr))
| WaitForTasks (handles : list nat)
| SpawnThread (thread_name : string) (wf_name : string)
              (inputs : list (string * expr)).

(** The builder object [wf] handed to a thread function. *)
Record WorkflowSpec := Wf {
  wf_variables : list var_decl;
  wf_nodes : list node
}.

Definition empty_wf : WorkflowSpec := Wf [] [].

(** [wf.add_variable(name, type)] returns the handle of the variable,
    which is its name. *)
Definition add_variable (name : string) (ty : VariableType)
    (wf : WorkflowSpec) : string * WorkflowSpec :=
  (name, Wf (wf_variables wf ++ [VarDecl name ty None]) (wf_nodes wf)).

(** [v.with_default_value(d)] on the handle [v]: sets the default of that
    declaration and returns the same handle. *)
Definition with_default_value (v : string) (d : literal)
    (wf : WorkflowSpec) : string * WorkflowSpec :=
  (v, Wf (map (fun decl =>
                 if String.eqb (var_name decl) v
                 then VarDecl (var_name decl) (var_type decl) (Some d)
                 else decl) (wf_variables wf))
         (wf_nodes wf)).

Definition jsonpath (v : string) (path : string) : expr := VarPath v path.

Definition node_jsonpath (h : nat) (path : string) : expr := NodePath h path.

(** [wf.execute_task(name, **kwargs)] appends a task node and returns the
    handle of its output. *)
Definition execute_task (task : string) (kwargs : list (string * expr))
    (wf : WorkflowSpec) : nat * WorkflowSpec :=
  (length (wf_nodes wf),
   Wf (wf_variables wf) (wf_nodes wf ++ [ExecuteTask task kwargs])).

Definition wait_for_tasks (handles : list nat) (wf : WorkflowSpec)
    : WorkflowSpec :=
  Wf (wf_variables wf) (wf_nodes wf ++ [WaitForTasks handles]).

Definition spawn_thread (thread_name wf_name : string)
    (inputs : list (string * expr)) (wf : WorkflowSpec) : nat * WorkflowSpec :=
  (length (wf_nodes wf),
   Wf (wf_variables wf) (wf_nodes wf ++ [SpawnThread thread_name wf_name inputs])).

(** [LittleHorseWorkflows.scan_workflow()]: the thread function [scan_wf]. *)
Definition scan_wf (wf : WorkflowSpec) : WorkflowSpec :=
  let '(tenant_id, wf) := add_variable "tenant_id" STR wf in
  let '(scan_id, wf) := add_variable "scan_id" STR wf in
  let '(provider_id, wf) := add_variable "provider_id" STR wf in
  let '(checks_to_execute, wf) := add_variable "checks_to_execute" JSON_OBJ wf in
  let '(checks_to_execute, wf) := with_default_value checks_to_execute (JList []) wf in
  let '(scan_result, wf) :=
    execute_task "perform-prowler-scan"
      [("tenant_id", jsonpath tenant_id "$");
       ("scan_id", jsonpath scan_id "$");
       ("provider_id", jsonpath provider_id "$");
       ("checks_to_execute", jsonpath checks_to_execute "$")] wf in
  let '(compliance_task, wf) :=
    execute_task "create-compliance-requirements"
      [("tenant_id", jsonpath tenant_id "$");
       ("scan_id", jsonpath scan_id "$")] wf in
  let '(summary_task, wf) :=
    execute_task "perform-scan-summary"
      [("tenant_id", jsonpath tenant_id "$");
       ("scan_id", jsonpath scan_id "$")] wf in
  let wf := wait_for_tasks [compliance_task; summary_task] wf in
  let '(_, wf) :=
    execute_task "generate-outputs"
      [("tenant_id", jsonpath tenant_id "$");
       ("scan_id", jsonpath scan_id "$");
       ("provider_id", jsonpath provider_id "$")] wf in
  wf.

(** [LittleHorseWorkflows.scheduled_scan_workflow()]: [scheduled_scan_wf]. *)
Definition scheduled_scan_wf (wf : WorkflowSpec) : WorkflowSpec :=
  let '(tenant_id, wf) := add_variable "tenant_id" STR wf in
  let '(provider_id, wf) := add_variable "provider_id" STR wf in
  let '(scan_setup, wf) :=
    execute_task "setup-scheduled-scan"
      [("tenant_id", jsonpath tenant_id "$");
       ("provider_id", jsonpath provider_id "$")] wf in
  let scan_id := node_jsonpath scan_setup "$.scan_id" in
  let '(_, wf) :=
    spawn_thread "main_scan_thread" "scan"
      [("tenant_id", jsonpath tenant_id "$");
       ("scan_id", scan_id);
       ("provider_id", jsonpath provider_id "$");
       ("checks_to_execute", Lit (JList []))] wf in
  wf.

(** [provider_deletion_workflow()]. *)
Definition provider_deletion_wf (wf : WorkflowSpec) : WorkflowSpec :=
  let '(tenant_id, wf) := add_variable "tenant_id" STR wf in
  let '(provider_id, wf) := add_variable "provider_id" STR wf in
  let '(_, wf) :=
    execute_task "delete-provider"
      [("tenant_id", jsonpath tenant_id "$");
       ("provider_id", jsonpath provider_id "$")] wf in
  wf.

(** [tenant_deletion_workflow()]. *)
Definition tenant_deletion_wf (wf : WorkflowSpec) : WorkflowSpec :=
  let '(tenant_id, wf) := add_variable "tenant_id" STR wf in
  let '(_, wf) :=
    execute_task "delete-tenant" [("tenant_id", jsonpath tenant_id "$")] wf in
  wf.

(** *** Reading a built definition *)

Definition is_wait (n : node) : bool :=
  match n with
  | WaitForTasks _ => true
  | _ => false
  end.

(** The value bound to the keyword [k] in a list of bindings. *)
Definition binding (k : string) (kw : list (string * expr)) : option expr :=
  snd <$> List.find (fun p => String.eqb (fst p) k) kw.

(** A binding that reads the output of an earlier node. *)
Definition reads_node (e : expr) : bool :=
  match e with
  | NodePath _ _ => true
  | _ => false
  end.

(** The bindings of a node, whatever its kind. *)
Definition bindings (n : node) : list (string * expr) :=
  match n with
  | ExecuteTask _ kw => kw
  | WaitForTasks _ => []
  | SpawnThread _ _ kw => kw
  end.

(** *** The engine client and the registrar *)

(** Modelled from the spec: the engine behind [client.put_wf_spec], which
    is an external service.  The spec gives it these properties:
    publishing under a name that is already published overwrites the
    prior definition, and a publish may fail with an engine error that
    the client raises.  [published] is the engine's registry,
    [put_calls] the names of the publish requests it has received, and
    [put_faults] the outcomes it will give to the coming requests, one
    per request ([None]: the request is served; an exhausted script
    serves every request). *)
Record engine := Engine {
  published : gmap string WorkflowSpec;
  put_calls : list string;
  put_faults : list (option exn)
}.

(** The world [register_workflows] runs in: the engine and the log. *)
Record world := World {
  client : engine;
  logger : list log_record
}.

Definition log (l : level) (text : string) : M world unit :=
  fun w => (Return tt, World (client w) (logger w ++ [Log l text])).

(** Modelled from the spec: [client.put_wf_spec(thread_func, name)],
    absent from the sources.  The request is recorded, the next scripted
    outcome is consumed, and on success the definition built by
    [thread_func] replaces whatever [name] held. *)
Definition put_wf_spec (thread_func : WorkflowSpec -> WorkflowSpec)
    (name : string) : M world unit :=
  fun w =>
    let c := client w in
    let calls := put_calls c ++ [name] in
    match put_faults c with
    | Some e :: rest =>
        (Raise e, World (Engine (published c) calls rest) (logger w))
    | None :: rest =>
        (Return tt,
         World (Engine (<[name := thread_func empty_wf]> (published c)) calls rest)
               (logger w))
    | [] =>
        (Return tt,
         World (Engine (<[name := thread_func empty_wf]> (published c)) calls [])
               (logger w))
    end.

(** [register_workflows()]. *)
Definition register_workflows : M world unit :=
  try_except
    (put_wf_spec scan_wf "scan" ;;;
     log INFO "Registered scan workflow" ;;;
     put_wf_spec scheduled_scan_wf "scheduled-scan" ;;;
     log INFO "Registered scheduled scan workflow" ;;;
     put_wf_spec provider_deletion_wf "provider-deletion" ;;;
     put_wf_spec tenant_deletion_wf "tenant-deletion" ;;;
     log INFO "Registered deletion workflows")%py
    (fun e =>
       log ERROR ("Failed to register workflows: " +:+ str_exn e) ;;;
       raise e)%py.

(** The four definitions in the order [register_workflows] publishes them. *)
Definition definitions : list (string * (WorkflowSpec -> WorkflowSpec)) :=
  [("scan", scan_wf);
   ("scheduled-scan", scheduled_scan_wf);
   ("provider-deletion", provider_deletion_wf);
   ("tenant-deletion", tenant_deletion_wf)].

Definition workflow_names : list string := map fst definitions.

(** The registry after publishing the definitions [ds] in order. *)
Definition publish_all (ds : list (string * (WorkflowSpec -> WorkflowSpec)))
    (reg : gmap string WorkflowSpec) : gmap string WorkflowSpec :=
  fold_left (fun r d => <[fst d := snd d empty_wf]> r) ds reg.

(** The informational records written once the first [k] publishes have
    gone through. *)
Definition progress_log (k : nat) : list log_record :=
  match k with
  | O => []
  | 1%nat => [Log INFO "Registered scan workflow"]
  | 2%nat | 3%nat =>
      [Log INFO "Registered scan workflow";
       Log INFO "Registered scheduled scan workflow"]
  | _ =>
      [Log INFO "Registered scan workflow";
       Log INFO "Registered scheduled scan workflow";
       Log INFO "Registered deletion workflows"]
  end.

(** Every coming publish request is served. *)
Definition fault_free (w : world) : Prop :=
  Forall (fun f => f = None) (put_faults (client w)).

End Workflows.

(** ** [tasks/littlehorse_workers.py] *)

Module Workers.
Import Py.

(** [Scan.TriggerChoices] and [StateChoices] of [api.models]. *)
Module TriggerChoices.
Inductive t := SCHEDULED | MANUAL.
#[global] Instance eq_dec : EqDecision t.
Proof. solve_decision. Defined.
End TriggerChoices.

Module StateChoices.
Inductive t := AVAILABLE | SCHEDULED | EXECUTING | COMPLETED | FAILED | CANCELLED.
#[global] Instance eq_dec : EqDecision t.
Proof. solve_decision. Defined.
End StateChoices.

(** *** Dates and times

    A [datetime] is an instant in UTC, counted in microseconds from the
    Unix epoch; [datetime.min] and [datetime.max] bound what Python can
    represent, and arithmetic that leaves the range raises
    [OverflowError]. *)
Definition MICROSECONDS_PER_DAY : Z := 86400000000.
Definition datetime_min : Z := -62135596800000000.
Definition datetime_max : Z := 253402300799999999.

(** [dt.date()] (and the [__date] lookup): the day the instant falls on. *)
Definition date (dt : Z) : Z := dt / MICROSECONDS_PER_DAY.

(** [dt - timedelta(days=n)]. *)
Definition sub_days (dt n : Z) : outcome Z :=
  let r := dt - n * MICROSECONDS_PER_DAY in
  if (datetime_min <=? r) && (r <=? datetime_max)
  then Return r
  else Raise (Exn "OverflowError" "date value out of range").

(** A row of [django_celery_beat]'s [PeriodicTask], as far as it is read. *)
Record PeriodicTask := {
  pt_id : Z;
  pt_name : string
}.

(** [ctx.get_variable(name)] of the engine's [WorkerContext]: what the
    lookup of each name gives, a value or an exception. *)
Definition WorkerContext : Type := string -> outcome string.

(** Django's exceptions for [Manager.get]. *)
Definition DoesNotExist (model : string) : exn :=
  Exn "DoesNotExist" (model +:+ " matching query does not exist.").

Definition MAX_GET_RESULTS : nat := 21.

Definition MultipleObjectsReturned (model : string) (num : nat) : exn :=
  Exn "MultipleObjectsReturned"
      ("get() returned more than one " +:+ model +:+ " -- it returned "
       +:+ (if (num <? MAX_GET_RESULTS)%nat then pretty num
            else "more than " +:+ pretty (MAX_GET_RESULTS - 1)%nat)
       +:+ "!").

(** [Manager.get] with the keyword lookups [lookup], over the rows of a table. *)
Definition get {A} (model : string) (lookup : A -> bool) (rows : list A)
    : outcome A :=
  match List.filter lookup rows with
  | [] => Raise (DoesNotExist model)
  | [r] => Return r
  | r :: rs => Raise (MultipleObjectsReturned model (length (r :: rs)))
  end.

(** [Manager.filter] with [lookup], then [first()]: the rows are kept in the order
    the query returns them. *)
Definition first {A} (lookup : A -> bool) (rows : list A) : option A :=
  head (List.filter lookup rows).

(** The lookup [name=f"scan-perform-scheduled-{provider_id}"]. *)
Definition named_for (provider : string) (p : PeriodicTask) : bool :=
  bool_decide (pt_name p = "scan-perform-scheduled-" +:+ provider).

Section Handlers.

(** The type of a scan's primary key and [str(scan.id)]. *)
Context {ScanId : Type}.
Variable str_id : ScanId -> string.

(** A row of [api.models.Scan]: the fields this module reads or sets. *)
Record Scan := {
  id : ScanId;
  tenant_id : string;
  provider_id : string;
  name : option string;
  trigger : TriggerChoices.t;
  state : StateChoices.t;
  scheduler_task_id : option Z;
  scheduled_at : option Z
}.

(** The database, and the log.  [scans] lists the rows of the table in
    the order in which a query returns them. *)
Record world := World {
  periodic_tasks : list PeriodicTask;
  scans : list Scan;
  logger : list log_record
}.

(** [ScanTaskSerializer(instance=scan).data]. *)
Context {ScanData : Type}.
Variable serializer_data : Scan -> ScanData.

(** [tasks.utils.get_next_execution_datetime(task_id, provider_id)]:
    it reads the schedule and returns a datetime, or raises. *)
Variable get_next_execution_datetime : string -> string -> world -> outcome Z.

(** The values of the dictionary a handler returns. *)
Inductive result_value :=
| RStr (s : string)
| RBool (b : bool)
| RData (d : ScanData).

Definition log (l : level) (text : string) : M world unit :=
  fun w => (Return tt, World (periodic_tasks w) (scans w) (logger w ++ [Log l text])).

(** A read of the world that may raise. *)
Definition query {A} (f : world -> outcome A) : M world A :=
  fun w => (f w, w).

(** [with rls_transaction(tenant_id): body].  The block runs in one
    database transaction under the tenant's row-level security; an
    exception leaving the block rolls the tables back (the log, which
    is not in the database, keeps its records) and propagates. *)
Definition rls_transaction {A} (tenant : string) (body : M world A) : M world A :=
  fun w =>
    match body w with
    | (Return a, w') => (Return a, w')
    | (Raise e, w') => (Raise e, World (periodic_tasks w) (scans w) (logger w'))
    end.

(** The lookup of the first query: tenant, provider, trigger, state
    EXECUTING, scheduling task, and [scheduled_at__date] equal to
    today. *)
Definition executing_today (tenant provider : string) (task : Z) (today : Z)
    (s : Scan) : bool :=
  bool_decide (tenant_id s = tenant)
  && bool_decide (provider_id s = provider)
  && bool_decide (trigger s = TriggerChoices.SCHEDULED)
  && bool_decide (state s = StateChoices.EXECUTING)
  && bool_decide (scheduler_task_id s = Some task)
  && match scheduled_at s with
     | Some dt => bool_decide (date dt = today)
     | None => false
     end.

(** The lookup of [get_or_create]: tenant, provider, trigger,
    [state__in=(SCHEDULED, AVAILABLE)], scheduling task. *)
Definition reusable (tenant provider : string) (task : Z) (s : Scan) : bool :=
  bool_decide (tenant_id s = tenant)
  && bool_decide (provider_id s = provider)
  && bool_decide (trigger s = TriggerChoices.SCHEDULED)
  && (bool_decide (state s = StateChoices.SCHEDULED)
      || bool_decide (state s = StateChoices.AVAILABLE))
  && bool_decide (scheduler_task_id s = Some task).

(** The row [get_or_create] inserts when nothing matches: the exact
    lookups (those without [__]) overridden by [defaults], under the
    primary key [pk] that the model draws for it. *)
Definition new_scan (pk : ScanId) (tenant provider : string) (task : Z)
    (scheduled : Z) : Scan :=
  {| id := pk;
     tenant_id := tenant;
     provider_id := provider;
     name := Some "Daily scheduled scan";
     trigger := TriggerChoices.SCHEDULED;
     state := StateChoices.SCHEDULED;
     scheduler_task_id := Some task;
     scheduled_at := Some scheduled |}.

(** [Scan.objects.get_or_create] with [lookup] and [defaults]: [get], and on
    [DoesNotExist] the creation of [row]; any other failure of [get]
    propagates. *)
Definition get_or_create (lookup : Scan -> bool) (row : Scan)
    : M world (Scan * bool) :=
  fun w =>
    match get "Scan" lookup (scans w) with
    | Return s => (Return (s, false), w)
    | Raise e =>
        if String.eqb (exn_class e) "DoesNotExist"
        then (Return (row, true),
              World (periodic_tasks w) (scans w ++ [row]) (logger w))
        else (Raise e, w)
    end.

(** [ProwlerTaskWorkers.setup_scheduled_scan_task(ctx)], run at the
    instant [now], with [pk] the primary key a created row receives. *)
Definition setup_scheduled_scan_task (ctx : WorkerContext) (now : Z) (pk : ScanId)
    : M world (gmap string result_value) :=
  try_except
    (tenant <- query (fun _ => ctx "tenant_id") ;;
     provider <- query (fun _ => ctx "provider_id") ;;
     r <- rls_transaction tenant
            (periodic_task_instance <-
               query (fun w => get "PeriodicTask" (named_for provider)
                                   (periodic_tasks w)) ;;
             existing_scan <-
               query (fun w => Return
                        (first (executing_today tenant provider
                                  (pt_id periodic_task_instance) (date now))
                               (scans w))) ;;
             match existing_scan with
             | Some existing =>
                 log WARNING ("Scheduled scan already running for provider "
                              +:+ provider) ;;;
                 ret (inl ({[ "scan_id" := RStr (str_id (id existing));
                              "duplicate" := RBool true;
                              "result" := RData (serializer_data existing) ]}
                           : gmap string result_value))
             | None =>
                 next_scan_datetime <-
                   query (get_next_execution_datetime "scheduled" provider) ;;
                 scheduled <- query (fun _ => sub_days next_scan_datetime 1) ;;
                 created <-
                   get_or_create
                     (reusable tenant provider (pt_id periodic_task_instance))
                     (new_scan pk tenant provider
                               (pt_id periodic_task_instance) scheduled) ;;
                 ret (inr (fst created))
             end) ;;
     match r with
     | inl early => ret early
     | inr scan_instance =>
         ret ({[ "scan_id" := RStr (str_id (id scan_instance));
                 "duplicate" := RBool false ]} : gmap string result_value)
     end)%py
    (fun e =>
       log ERROR ("Error in setup_scheduled_scan_task: " +:+ str_exn e) ;;;
       raise e)%py.

End Handlers.

(** *** Worker start-up *)

(** The bound methods of [ProwlerTaskWorkers] that are registered. *)
Inductive task_method :=
| perform_prowler_scan_task
| perform_scan_summary_task
| create_compliance_requirements_task
| generate_outputs_task
| setup_scheduled_scan
| delete_provider_task
| delete_tenant_task
| check_provider_connection_task
| check_lighthouse_connection_task
| backfill_scan_resource_summaries_task.

(** [LHTaskWorker(callable, task_def_name, config)]; every worker is
    given the same [workers.config]. *)
Record LHTaskWorker := {
  callable : task_method;
  task_def_name : string
}.

(** Modelled from the spec: the engine side of [worker.start()], which
    is an external library call.  [running] lists the workers that have
    started, [start_calls] the workers whose start was requested, and
    [start_faults] the outcomes of the coming requests, one per request
    ([None]: the worker starts; an exhausted script starts every
    worker). *)
Record fleet := Fleet {
  running : list string;
  start_calls : list string;
  start_faults : list (option exn);
  fleet_logger : list log_record
}.

Definition fleet_log (l : level) (text : string) : M fleet unit :=
  fun f => (Return tt,
            Fleet (running f) (start_calls f) (start_faults f)
                  (fleet_logger f ++ [Log l text])).

(** Modelled from the spec: [worker.start()], absent from the sources. *)
Definition start (worker : LHTaskWorker) : M fleet unit :=
  fun f =>
    let calls := start_calls f ++ [task_def_name worker] in
    match start_faults f with
    | Some e :: rest => (Raise e, Fleet (running f) calls rest (fleet_logger f))
    | None :: rest =>
        (Return tt,
         Fleet (running f ++ [task_def_name worker]) calls rest (fleet_logger f))
    | [] =>
        (Return tt,
         Fleet (running f ++ [task_def_name worker]) calls [] (fleet_logger f))
    end.

(** The list [task_workers], in the order of the [append] calls. *)
Definition task_workers : list LHTaskWorker :=
  [ {| callable := perform_prowler_scan_task; task_def_name := "perform-prowler-scan" |};
    {| callable := perform_scan_summary_task; task_def_name := "perform-scan-summary" |};
    {| callable := create_compliance_requirements_task;
       task_def_name := "create-compliance-requirements" |};
    {| callable := generate_outputs_task; task_def_name := "generate-outputs" |};
    {| callable := setup_scheduled_scan; task_def_name := "setup-scheduled-scan" |};
    {| callable := delete_provider_task; task_def_name := "delete-provider" |};
    {| callable := delete_tenant_task; task_def_name := "delete-tenant" |};
    {| callable := check_provider_connection_task;
       task_def_name := "check-provider-connection" |};
    {| callable := check_lighthouse_connection_task;
       task_def_name := "check-lighthouse-connection" |};
    {| callable := backfill_scan_resource_summaries_task;
       task_def_name := "backfill-scan-resource-summaries" |} ].

(** The loop [for worker in task_workers: try: ... except: ... raise]. *)
Fixpoint start_all (workers : list LHTaskWorker) : M fleet unit :=
  match workers with
  | [] => ret tt
  | worker :: rest =>
      (try_except
         (start worker ;;;
          fleet_log INFO ("Started task worker: " +:+ task_def_name worker))
         (fun e =>
            fleet_log ERROR ("Failed to start task worker "
                             +:+ task_def_name worker +:+ ": " +:+ str_exn e) ;;;
            raise e) ;;;
       start_all rest)%py
  end.

(** [start_task_workers()], for a given list of constructed workers. *)
Definition start_workers (workers : list LHTaskWorker) : M fleet (list LHTaskWorker) :=
  (fleet_log INFO ("Starting " +:+ pretty (length workers)
                   +:+ " LittleHorse task workers") ;;;
   start_all workers ;;;
   ret workers)%py.

Definition start_task_workers : M fleet (list LHTaskWorker) :=
  start_workers task_workers.

(** The records written for workers that started. *)
Definition started_log (workers : list LHTaskWorker) : list log_record :=
  map (fun w => Log INFO ("Started task worker: " +:+ task_def_name w)) workers.

End Workers.

(** ** A scenario: tenant t1, provider p1

    Sample data on which the handler is run: scans are keyed by numbers,
    serialized to their name, and the next execution is one day after the
    current instant. *)

Module Scenario.
Import Py Workers.

Definition ctx : WorkerContext :=
  fun v =>
    if String.eqb v "tenant_id" then Return "t1"
    else if String.eqb v "provider_id" then Return "p1"
    else Raise (Exn "KeyError" v).

(** 2025-11-04T09:30:00Z. *)
Definition now : Z := 1762248600000000.

Definition str_id (n : nat) : string := pretty n.

Definition serializer_data (s : @Scan nat) : option string := name s.

Definition get_next_execution_datetime (kind provider : string) (w : @world nat)
    : outcome Z :=
  Return (now + MICROSECONDS_PER_DAY).

Definition schedule : PeriodicTask :=
  {| pt_id := 7; pt_name := "scan-perform-scheduled-p1" |}.

(** A scheduled scan of today that is running. *)
Definition running_scan : @Scan nat :=
  {| id := 1%nat; tenant_id := "t1"; provider_id := "p1";
     name := Some "Daily scheduled scan";
     trigger := TriggerChoices.SCHEDULED; state := StateChoices.EXECUTING;
     scheduler_task_id := Some 7; scheduled_at := Some (now - 3600000000) |}.

(** A scheduled scan of the day before that has not started. *)
Definition stale_scan : @Scan nat :=
  {| id := 2%nat; tenant_id := "t1"; provider_id := "p1";
     name := Some "Daily scheduled scan";
     trigger := TriggerChoices.SCHEDULED; state := StateChoices.SCHEDULED;
     scheduler_task_id := Some 7;
     scheduled_at := Some (now - MICROSECONDS_PER_DAY) |}.

(** A finished scan of another day. *)
Definition finished_scan : @Scan nat :=
  {| id := 3%nat; tenant_id := "t1"; provider_id := "p1";
     name := Some "Daily scheduled scan";
     trigger := TriggerChoices.SCHEDULED; state := StateChoices.COMPLETED;
     scheduler_task_id := Some 7;
     scheduled_at := Some (now - 2 * MICROSECONDS_PER_DAY) |}.

Definition db (tasks : list PeriodicTask) (rows : list (@Scan nat)) : @world nat :=
  World tasks rows [].

Definition setup :=
  setup_scheduled_scan_task str_id serializer_data get_next_execution_datetime.

End Scenario.

(** ** [tasks/littlehorse_workers.py]: the handlers that delegate *)

Module Tasks.
Import Py.

Section Delegating.

(** The values that travel between the engine, a handler and a domain
    operation; [empty_list] is the literal [[]]. *)
Context {Value : Type}.
Variable empty_list : Value.

(** The engine's [WorkerContext]: [ctx.get_variable(name)] and
    [ctx.get_variable(name, default)], each a value or an exception. *)
Record Context := {
  get_variable : string -> outcome Value;
  get_variable_or : string -> Value -> outcome Value
}.

(** The operations of [tasks.jobs] (and the Celery task behind
    generate-outputs) that the handlers call: for a callee and its keyword
    arguments, the value it returns or the exception it raises. *)
Variable domain : string -> list (string * Value) -> outcome Value.

(** The calls made to domain operations, and the module's log. *)
Record jobs := Jobs {
  job_calls : list (string * list (string * Value));
  job_logger : list log_record
}.

Definition job_log (l : level) (text : string) : M jobs unit :=
  fun w => (Return tt, Jobs (job_calls w) (job_logger w ++ [Log l text])).

Definition var (ctx : Context) (v : string) : M jobs Value :=
  fun w => (get_variable ctx v, w).

Definition var_or (ctx : Context) (v : string) (default : Value) : M jobs Value :=
  fun w => (get_variable_or ctx v default, w).

Definition call (callee : string) (kwargs : list (string * Value)) : M jobs Value :=
  fun w => (domain callee kwargs,
            Jobs (job_calls w ++ [(callee, kwargs)]) (job_logger w)).

(** [except Exception as e: logger.error(f"Error in {method}: {e}"); raise]. *)
Definition log_and_raise (method : string) (e : exn) : M jobs Value :=
  (job_log ERROR ("Error in " +:+ method +:+ ": " +:+ str_exn e) ;;;
   raise e)%py.

Definition perform_prowler_scan_task (ctx : Context) : M jobs Value :=
  try_except
    (tenant_id <- var ctx "tenant_id" ;;
     scan_id <- var ctx "scan_id" ;;
     provider_id <- var ctx "provider_id" ;;
     checks_to_execute <- var_or ctx "checks_to_execute" empty_list ;;
     result <- call "perform_prowler_scan"
                 [("tenant_id", tenant_id); ("scan_id", scan_id);
                  ("provider_id", provider_id);
                  ("checks_to_execute", checks_to_execute)] ;;
     ret result)%py
    (log_and_raise "perform_prowler_scan_task").

Definition perform_scan_summary_task (ctx : Context) : M jobs Value :=
  try_except
    (tenant_id <- var ctx "tenant_id" ;;
     scan_id <- var ctx "scan_id" ;;
     call "aggregate_findings" [("tenant_id", tenant_id); ("scan_id", scan_id)])%py
    (log_and_raise "perform_scan_summary_task").

Definition create_compliance_requirements_task (ctx : Context) : M jobs Value :=
  try_except
    (tenant_id <- var ctx "tenant_id" ;;
     scan_id <- var ctx "scan_id" ;;
     call "create_compliance_requirements"
       [("tenant_id", tenant_id); ("scan_id", scan_id)])%py
    (log_and_raise "create_compliance_requirements_task").

(** The callee is the Celery task of [tasks.tasks]: [apply_async] with the
    keyword arguments, then [get()] on its result. *)
Definition generate_outputs_task (ctx : Context) : M jobs Value :=
  try_except
    (tenant_id <- var ctx "tenant_id" ;;
     scan_id <- var ctx "scan_id" ;;
     provider_id <- var ctx "provider_id" ;;
     call "generate_outputs_task.apply_async"
       [("tenant_id", tenant_id); ("scan_id", scan_id);
        ("provider_id", provider_id)])%py
    (log_and_raise "generate_outputs_task").

Definition delete_provider_task (ctx : Context) : M jobs Value :=
  try_except
    (tenant_id <- var ctx "tenant_id" ;;
     provider_id <- var ctx "provider_id" ;;
     call "delete_provider" [("tenant_id", tenant_id); ("pk", provider_id)])%py
    (log_and_raise "delete_provider_task").

Definition delete_tenant_task (ctx : Context) : M jobs Value :=
  try_except
    (tenant_id <- var ctx "tenant_id" ;;
     call "delete_tenant" [("pk", tenant_id)])%py
    (log_and_raise "delete_tenant_task").

Definition check_provider_connection_task (ctx : Context) : M jobs Value :=
  try_except
    (provider_id <- var ctx "provider_id" ;;
     call "check_provider_connection" [("provider_id", provider_id)])%py
    (log_and_raise "check_provider_connection_task").

Definition check_lighthouse_connection_task (ctx : Context) : M jobs Value :=
  try_except
    (lighthouse_config_id <- var ctx "lighthouse_config_id" ;;
     call "check_lighthouse_connection"
       [("lighthouse_config_id", lighthouse_config_id)])%py
    (log_and_raise "check_lighthouse_connection_task").

Definition backfill_scan_resource_summaries_task (ctx : Context) : M jobs Value :=
  try_except
    (tenant_id <- var ctx "tenant_id" ;;
     scan_id <- var ctx "scan_id" ;;
     call "backfill_resource_scan_summaries"
       [("tenant_id", tenant_id); ("scan_id", scan_id)])%py
    (log_and_raise "backfill_scan_resource_summaries_task").


(** The delegating handler behind a registered method; the handler of
    setup-scheduled-scan works on the database and is
    [Workers.setup_scheduled_scan_task]. *)
Definition delegate (m : Workers.task_method) : option (Context -> M jobs Value) :=
  match m with
  | Workers.perform_prowler_scan_task => Some perform_prowler_scan_task
  | Workers.perform_scan_summary_task => Some perform_scan_summary_task
  | Workers.create_compliance_requirements_task =>
      Some create_compliance_requirements_task
  | Workers.generate_outputs_task => Some generate_outputs_task
  | Workers.setup_scheduled_scan => None
  | Workers.delete_provider_task => Some delete_provider_task
  | Workers.delete_tenant_task => Some delete_tenant_task
  | Workers.check_provider_connection_task => Some check_provider_connection_task
  | Workers.check_lighthouse_connection_task => Some check_lighthouse_connection_task
  | Workers.backfill_scan_resource_summaries_task =>
      Some backfill_scan_resource_summaries_task
  end.

(** The method that the worker registered for a task name runs. *)
Definition method_for (task : string) : option Workers.task_method :=
  Workers.callable
    <$> List.find (fun w => String.eqb (Workers.task_def_name w) task)
                  Workers.task_workers.

(** A context that answers the names [ks], with or without a default. *)
Definition answers (ctx : Context) (ks : list string) : Prop :=
  forall k, In k ks ->
    (exists v, get_variable ctx k = Return v)
    /\ (forall d, exists v, get_variable_or ctx k d = Return v).

End Delegating.

End Tasks.

(** ** [config/workflows.py]: starting a workflow *)

Module Launcher.
Import Py Workflows.

Section StartWorkflow.

(** The type of the engine's run identifiers and [str(run_id)]; the
    values of workflow variables. *)
Context {RunId Value : Type}.
Variable str_run_id : RunId -> string.

(** [client.run_wf(workflow_name, **variables)] on the engine in its
    current state: the identifier of the new run, or an exception. *)
Variable run_wf : string -> list (string * Value) -> engine -> outcome RunId.


End StartWorkflow.

End Launcher.

(** ** [api/management/commands/start_littlehorse_workers.py] *)

Module Command.
Import Py.

(** [self.style.SUCCESS], [self.style.ERROR], or no style. *)
Inductive style := PLAIN | SUCCESS | FAILURE.

(** What the command acts on: the engine and log of [config.workflows],
    the workers and log of [tasks.littlehorse_workers], and the messages
    written to [self.stdout]. *)
Record system := System {
  registrar : Workflows.world;
  workers : Workers.fleet;
  stdout : list (style * string)
}.

Definition write (st : style) (text : string) : M system unit :=
  fun s => (Return tt, System (registrar s) (workers s) (stdout s ++ [(st, text)])).

(** [register_workflows()] within the system. *)
Definition register_workflows : M system unit :=
  fun s =>
    match Workflows.register_workflows (registrar s) with
    | (out, r) => (out, System r (workers s) (stdout s))
    end.

(** [start_task_workers()] within the system. *)
Definition start_task_workers : M system (list Workers.LHTaskWorker) :=
  fun s =>
    match Workers.start_task_workers (workers s) with
    | (out, f) => (out, System (registrar s) f (stdout s))
    end.

Definition KeyboardInterrupt : exn := Exn "KeyboardInterrupt" "".

(** The exceptions that [except Exception] does not catch. *)
Definition is_Exception (e : exn) : bool :=
  negb (String.eqb (exn_class e) "KeyboardInterrupt"
        || String.eqb (exn_class e) "SystemExit"
        || String.eqb (exn_class e) "GeneratorExit").

(** [try: body / except Exception as e: handler e]. *)
Definition try_except_Exception {A} (body : M system A) (handler : exn -> M system A)
    : M system A :=
  fun s =>
    match body s with
    | (Return a, s') => (Return a, s')
    | (Raise e, s') => if is_Exception e then handler e s' else (Raise e, s')
    end.

(** [try: body / except KeyboardInterrupt: handler]. *)
Definition try_except_KeyboardInterrupt {A} (body : M system A) (handler : M system A)
    : M system A :=
  fun s =>
    match body s with
    | (Return a, s') => (Return a, s')
    | (Raise e, s') =>
        if String.eqb (exn_class e) "KeyboardInterrupt" then handler s'
        else (Raise e, s')
    end.

(** [while True: time.sleep(1)], in a run where Ctrl+C arrives after
    [ticks] completed sleeps.  (A run that is never interrupted does not
    leave the loop.) *)
Fixpoint sleep_until_interrupt (ticks : nat) : M system unit :=
  match ticks with
  | O => raise KeyboardInterrupt
  | S n => (ret tt ;;; sleep_until_interrupt n)%py
  end.

(** [Command.handle], with [options['register_only']] as [register_only]. *)
Definition handle (register_only : bool) (ticks : nat) : M system unit :=
  (write PLAIN "Starting LittleHorse integration..." ;;;
   try_except_Exception
     (write PLAIN "Registering LittleHorse workflows..." ;;;
      register_workflows ;;;
      write SUCCESS "Successfully registered LittleHorse workflows" ;;;
      if register_only then ret tt
      else
        (write PLAIN "Starting LittleHorse task workers..." ;;;
         started <- start_task_workers ;;
         write SUCCESS ("Successfully started " +:+ pretty (length started)
                        +:+ " LittleHorse task workers") ;;;
         try_except_KeyboardInterrupt
           (write PLAIN "LittleHorse workers are running. Press Ctrl+C to stop." ;;;
            sleep_until_interrupt ticks)
           (write PLAIN (String "010"%char "Shutting down LittleHorse workers..."))))
     (fun e =>
        write FAILURE ("Failed to start LittleHorse workers: " +:+ str_exn e) ;;;
        raise e))%py.

End Command.

(** ** More rows for the scenario *)

Module Scenario2.
Import Py Workers Scenario.

(** A second scan that [get_or_create] could pick. *)
Definition available_scan : @Scan nat :=
  {| id := 4%nat; tenant_id := "t1"; provider_id := "p1";
     name := None;
     trigger := TriggerChoices.SCHEDULED; state := StateChoices.AVAILABLE;
     scheduler_task_id := Some 7; scheduled_at := None |}.

(** A scan of another tenant that is running today. *)
Definition foreign_scan : @Scan nat :=
  {| id := 5%nat; tenant_id := "t2"; provider_id := "p1";
     name := Some "Daily scheduled scan";
     trigger := TriggerChoices.SCHEDULED; state := StateChoices.EXECUTING;
     scheduler_task_id := Some 7; scheduled_at := Some now |}.


(** Domain operations that all return ["done"], except the aggregation,
    which fails. *)
Definition job_domain (callee : string) (kwargs : list (string * string))
    : outcome string :=
  if String.eqb callee "aggregate_findings"
  then Raise (Exn "DatabaseError" "deadlock detected")
  else Return "done".

End Scenario2.

(** ** A scan that starts running *)

Module Transitions.
Import Workers.

(** The row [s] once its state has been set to [st], as the scan task does
    when it starts on a scheduled scan. *)
Definition with_state {ScanId : Type} (st : StateChoices.t) (s : @Scan ScanId)
    : @Scan ScanId :=
  {| id := id s;
     tenant_id := tenant_id s;
     provider_id := provider_id s;
     name := name s;
     trigger := trigger s;
     state := st;
     scheduler_task_id := scheduler_task_id s;
     scheduled_at := scheduled_at s |}.

End Transitions.

(** * Properties *)

(** ** The engine client configuration *)

Module ConfigFacts.
Import Py Config.

Lemma truthy_provided v : truthy (of_env v) = true <-> provided v.
Proof.
  destruct v as [s|]; simpl.
  - rewrite negb_true_iff. split.
    + intros H. exists s. split; [reflexivity|].
      intros ->. discriminate.
    + intros (s' & [= <-] & Hne). apply String.eqb_neq. exact Hne.
  - split; [discriminate|]. intros (s & Hs & _). discriminate.
Qed.

Lemma all_truthy_provided ca cert key :
  truthy (of_env ca) && truthy (of_env cert) && truthy (of_env key) = true
  <-> provided ca /\ provided cert /\ provided key.
Proof.
  rewrite !andb_true_iff, !truthy_provided. tauto.
Qed.

(** Without the TLS branch the dictionary holds the two bootstrap entries. *)
Lemma config_without_tls host port ca cert key :
  truthy (of_env ca) && truthy (of_env cert) && truthy (of_env key) = false ->
  LITTLEHORSE_CONFIG host port ca cert key
  = <["bootstrap_port" := PInt port]> (<["bootstrap_host" := PStr host]> ∅).
Proof. intros H. unfold LITTLEHORSE_CONFIG. rewrite H. reflexivity. Qed.

Lemma config_with_tls host port ca cert key :
  truthy (of_env ca) && truthy (of_env cert) && truthy (of_env key) = true ->
  LITTLEHORSE_CONFIG host port ca cert key
  = update3 "ca_cert" (of_env ca) "client_cert" (of_env cert)
            "client_key" (of_env key)
      (<["bootstrap_port" := PInt port]> (<["bootstrap_host" := PStr host]> ∅)).
Proof. intros H. unfold LITTLEHORSE_CONFIG. rewrite H. reflexivity. Qed.

(** C8.  The configuration holds the TLS settings exactly when all three
    TLS paths are provided (set to a non-empty path): then the three
    entries carry the three paths; and as soon as one of the three is
    missing, none of the three entries is present. *)
Theorem tls_all_or_nothing host port ca cert key :
  let cfg := LITTLEHORSE_CONFIG host port ca cert key in
  (tls_keys ⊆ dom cfg <-> provided ca /\ provided cert /\ provided key)
  /\ (provided ca /\ provided cert /\ provided key ->
      cfg !! "ca_cert" = Some (of_env ca)
      /\ cfg !! "client_cert" = Some (of_env cert)
      /\ cfg !! "client_key" = Some (of_env key))
  /\ (~ (provided ca /\ provided cert /\ provided key) ->
      forall k, k ∈ tls_keys -> cfg !! k = None).
Proof.
  intros cfg. subst cfg.
  destruct (truthy (of_env ca) && truthy (of_env cert) && truthy (of_env key))
    eqn:Hall.
  - pose proof (proj1 (all_truthy_provided ca cert key) Hall) as Hp.
    rewrite (config_with_tls _ _ _ _ _ Hall). unfold update3, tls_keys.
    split; [|split].
    + split; [intros _; exact Hp|]. intros _.
      rewrite !dom_insert_L. set_solver.
    + intros _. repeat split; by simplify_map_eq.
    + intros Hn. contradiction.
  - assert (Hn : ~ (provided ca /\ provided cert /\ provided key)).
    { intros Hp. apply all_truthy_provided in Hp. congruence. }
    rewrite (config_without_tls _ _ _ _ _ Hall). unfold tls_keys.
    split; [|split].
    + split; [|intros Hp; contradiction].
      intros Hsub. exfalso.
      assert (Hin : "ca_cert" ∈ dom (<["bootstrap_port" := PInt port]>
                      (<["bootstrap_host" := PStr host]> (∅ : gmap string value)))).
      { apply Hsub. set_solver. }
      rewrite !dom_insert_L, dom_empty_L in Hin. set_solver.
    + intros Hp. contradiction.
    + intros _ k Hk.
      assert (Hcases : k = "ca_cert" \/ k = "client_cert" \/ k = "client_key")
        by set_solver.
      destruct Hcases as [-> | [-> | ->]]; by simplify_map_eq.
Qed.

Lemma tls_all_or_nothing_witness :
  let cfg := LITTLEHORSE_CONFIG "localhost" 2023
               (Some "/certs/ca.pem") (Some "/certs/client.pem") None in
  (tls_keys ⊆ dom cfg <->
     provided (Some "/certs/ca.pem") /\ provided (Some "/certs/client.pem")
     /\ provided None)
  /\ (provided (Some "/certs/ca.pem") /\ provided (Some "/certs/client.pem")
      /\ provided None ->
      cfg !! "ca_cert" = Some (of_env (Some "/certs/ca.pem"))
      /\ cfg !! "client_cert" = Some (of_env (Some "/certs/client.pem"))
      /\ cfg !! "client_key" = Some (of_env None))
  /\ (~ (provided (Some "/certs/ca.pem") /\ provided (Some "/certs/client.pem")
         /\ provided None) ->
      forall k, k ∈ tls_keys -> cfg !! k = None).
Proof.
  exact (tls_all_or_nothing "localhost" 2023
           (Some "/certs/ca.pem") (Some "/certs/client.pem") None).
Defined.

End ConfigFacts.

(** ** The workflow definitions and their registration *)

Module WorkflowFacts.
Import Py Workflows.

(** The step graph of the scan workflow as [scan_wf] builds it: four task
    nodes in the order perform-prowler-scan, create-compliance-requirements,
    perform-scan-summary, generate-outputs, with one barrier before the
    last that names the handles of the second and third; no node reads
    the output of another. *)
Lemma scan_wf_step_graph :
  wf_nodes (scan_wf empty_wf)
  = [ ExecuteTask "perform-prowler-scan"
        [("tenant_id", VarPath "tenant_id" "$");
         ("scan_id", VarPath "scan_id" "$");
         ("provider_id", VarPath "provider_id" "$");
         ("checks_to_execute", VarPath "checks_to_execute" "$")];
      ExecuteTask "create-compliance-requirements"
        [("tenant_id", VarPath "tenant_id" "$");
         ("scan_id", VarPath "scan_id" "$")];
      ExecuteTask "perform-scan-summary"
        [("tenant_id", VarPath "tenant_id" "$");
         ("scan_id", VarPath "scan_id" "$")];
      WaitForTasks [1%nat; 2%nat];
      ExecuteTask "generate-outputs"
        [("tenant_id", VarPath "tenant_id" "$");
         ("scan_id", VarPath "scan_id" "$");
         ("provider_id", VarPath "provider_id" "$")] ]
  /\ forallb (fun n => forallb (fun b => negb (reads_node (snd b))) (bindings n))
             (wf_nodes (scan_wf empty_wf)) = true.
Proof. split; reflexivity. Qed.

(** The declared inputs of the scan workflow; only the list of checks
    has a default, the empty list. *)
Lemma scan_wf_variables :
  wf_variables (scan_wf empty_wf)
  = [ VarDecl "tenant_id" STR None;
      VarDecl "scan_id" STR None;
      VarDecl "provider_id" STR None;
      VarDecl "checks_to_execute" JSON_OBJ (Some (JList [])) ].
Proof. reflexivity. Qed.

(** C7.  The scheduled-scan workflow consists of two nodes.  The first
    executes the task setup-scheduled-scan on the tenant and provider
    inputs.  The second spawns a thread running the workflow registered
    as "scan" (the one [scan_wf] defines), whose inputs are the parent's
    tenant and provider variables passed through, the field scan_id of
    the first node's output, and the empty list of checks.  No node of
    the parent is a wait, so the parent never waits for the thread. *)
Theorem scheduled_scan_hands_off :
  let wf := scheduled_scan_wf empty_wf in
  exists setup_kwargs inputs,
    wf_nodes wf = [ ExecuteTask "setup-scheduled-scan" setup_kwargs;
                    SpawnThread "main_scan_thread" "scan" inputs ]
    /\ binding "tenant_id" setup_kwargs = Some (VarPath "tenant_id" "$")
    /\ binding "provider_id" setup_kwargs = Some (VarPath "provider_id" "$")
    /\ map fst inputs = ["tenant_id"; "scan_id"; "provider_id"; "checks_to_execute"]
    /\ binding "tenant_id" inputs = Some (VarPath "tenant_id" "$")
    /\ binding "provider_id" inputs = Some (VarPath "provider_id" "$")
    /\ binding "scan_id" inputs = Some (NodePath 0 "$.scan_id")
    /\ binding "checks_to_execute" inputs = Some (Lit (JList []))
    /\ List.find (fun d => String.eqb (fst d) "scan") definitions
       = Some ("scan", scan_wf)
    /\ forallb (fun n => negb (is_wait n)) (wf_nodes wf) = true.
Proof.
  intros wf. subst wf.
  eexists _, _. split; [reflexivity|].
  repeat split; reflexivity.
Qed.

(** *** Registration *)

Lemma put_wf_spec_served f n (w : world) :
  fault_free w ->
  put_wf_spec f n w
  = (Return tt,
     World (Engine (<[n := f empty_wf]> (published (client w)))
                   (put_calls (client w) ++ [n])
                   (tail (put_faults (client w))))
           (logger w))
  /\ Forall (fun o => o = None) (tail (put_faults (client w))).
Proof.
  unfold fault_free, put_wf_spec. destruct w as [[pub calls faults] lg]; simpl.
  intros Hff. destruct faults as [|[e|] rest]; simpl.
  - split; [reflexivity | constructor].
  - inversion Hff; subst. discriminate.
  - inversion Hff; subst. split; [reflexivity | assumption].
Qed.

(** With the engine serving every request, [register_workflows] returns
    normally, has published the four definitions in order and has
    written its three records. *)
Lemma register_workflows_served (w : world) :
  fault_free w ->
  register_workflows w
  = (Return tt,
     World (Engine (publish_all definitions (published (client w)))
                   (put_calls (client w) ++ workflow_names)
                   (drop 4 (put_faults (client w))))
           (logger w ++ progress_log 4)).
Proof.
  unfold fault_free. destruct w as [[pub calls faults] lg]; simpl.
  intros Hff.
  assert (Hpre : take 4 faults = repeat None (length (take 4 faults))).
  { apply Forall_take with (n := 4%nat) in Hff.
    induction (take 4 faults) as [|o l IH]; [reflexivity|].
    inversion Hff; subst. simpl. f_equal. auto. }
  rewrite <- (take_drop 4 faults) at 1. rewrite Hpre.
  assert (Hlen : (length (take 4 faults) <= 4)%nat) by (rewrite length_take; lia).
  destruct faults as [|o1 [|o2 [|o3 [|o4 rest]]]]; simpl;
    unfold register_workflows, try_except, bind, put_wf_spec, log; simpl;
    rewrite <- ?app_assoc; reflexivity.
Qed.

Lemma publish_all_definitions (reg : gmap string WorkflowSpec) :
  publish_all definitions reg
  = <["tenant-deletion" := tenant_deletion_wf empty_wf]>
      (<["provider-deletion" := provider_deletion_wf empty_wf]>
         (<["scheduled-scan" := scheduled_scan_wf empty_wf]>
            (<["scan" := scan_wf empty_wf]> reg))).
Proof. reflexivity. Qed.

Lemma publish_all_dom ds (reg : gmap string WorkflowSpec) :
  dom (publish_all ds reg) = dom reg ∪ list_to_set (map fst ds).
Proof.
  revert reg. induction ds as [|d ds IH]; intros reg.
  - simpl. set_solver.
  - change (publish_all (d :: ds) reg)
      with (publish_all ds (<[fst d := snd d empty_wf]> reg)).
    rewrite IH, dom_insert_L. set_solver.
Qed.

(** Publishing the same definitions a second time changes nothing. *)
Lemma publish_all_twice (reg : gmap string WorkflowSpec) :
  publish_all definitions (publish_all definitions reg)
  = publish_all definitions reg.
Proof.
  rewrite !publish_all_definitions.
  apply map_eq. intros k.
  destruct (decide (k = "tenant-deletion")) as [->|H1]; [by simplify_map_eq|].
  destruct (decide (k = "provider-deletion")) as [->|H2]; [by simplify_map_eq|].
  destruct (decide (k = "scheduled-scan")) as [->|H3]; [by simplify_map_eq|].
  destruct (decide (k = "scan")) as [->|H4]; [by simplify_map_eq|].
  by simplify_map_eq.
Qed.

Lemma fault_free_drop n (w : world) :
  fault_free w -> Forall (fun o => o = None) (drop n (put_faults (client w))).
Proof. unfold fault_free. apply Forall_drop. Qed.

(** C5.  With an engine that serves the publish requests, two successive
    calls of [register_workflows] both return normally, although at the
    second call the four names are already published; the second call
    leaves the registry as the first left it, holding under the names
    scan, scheduled-scan, provider-deletion and tenant-deletion the four
    definitions, and nothing beyond what was published before: on an
    engine that held no other workflow, exactly these four. *)
Theorem register_workflows_idempotent (w : world) :
  fault_free w ->
  exists w1 w2,
    register_workflows w = (Return tt, w1)
    /\ list_to_set workflow_names ⊆ dom (published (client w1))
    /\ register_workflows w1 = (Return tt, w2)
    /\ published (client w2) = published (client w1)
    /\ published (client w2) !! "scan" = Some (scan_wf empty_wf)
    /\ published (client w2) !! "scheduled-scan" = Some (scheduled_scan_wf empty_wf)
    /\ published (client w2) !! "provider-deletion"
       = Some (provider_deletion_wf empty_wf)
    /\ published (client w2) !! "tenant-deletion" = Some (tenant_deletion_wf empty_wf)
    /\ dom (published (client w2))
       = dom (published (client w))
         ∪ {[ "scan"; "scheduled-scan"; "provider-deletion"; "tenant-deletion" ]}
    /\ (dom (published (client w))
          ⊆ {[ "scan"; "scheduled-scan"; "provider-deletion"; "tenant-deletion" ]} ->
        dom (published (client w2))
        = {[ "scan"; "scheduled-scan"; "provider-deletion"; "tenant-deletion" ]}
        /\ size (published (client w2)) = 4%nat).
Proof.
  intros Hff.
  pose proof (register_workflows_served w Hff) as H1.
  set (w1 := World (Engine (publish_all definitions (published (client w)))
                           (put_calls (client w) ++ workflow_names)
                           (drop 4 (put_faults (client w))))
                   (logger w ++ progress_log 4)) in *.
  assert (Hff1 : fault_free w1) by (apply (fault_free_drop 4 w Hff)).
  pose proof (register_workflows_served w1 Hff1) as H2.
  eexists w1, _. split; [exact H1|].
  split; [|split; [exact H2|]].
  { subst w1. cbn [client published]. rewrite publish_all_dom. set_solver. }
  assert (Hdom : dom (publish_all definitions (published (client w)))
                 = dom (published (client w))
                   ∪ {[ "scan"; "scheduled-scan"; "provider-deletion";
                        "tenant-deletion" ]}).
  { rewrite publish_all_dom. simpl. set_solver. }
  subst w1. cbn [client published]. rewrite publish_all_twice.
  split; [reflexivity|].
  rewrite Hdom. rewrite publish_all_definitions.
  do 4 (split; [by simplify_map_eq|]).
  split; [reflexivity|].
  intros Hsub.
  assert (Heq : dom (published (client w))
                ∪ {[ "scan"; "scheduled-scan"; "provider-deletion"; "tenant-deletion" ]}
                = ({[ "scan"; "scheduled-scan"; "provider-deletion"; "tenant-deletion" ]}
                   : gset string)) by set_solver.
  split; [exact Heq|].
  rewrite <- publish_all_definitions, <- size_dom, Hdom, Heq.
  reflexivity.
Qed.

Lemma register_workflows_idempotent_witness :
  exists w1 w2,
    register_workflows (World (Engine ∅ [] []) []) = (Return tt, w1)
    /\ register_workflows w1 = (Return tt, w2)
    /\ published (client w2) = published (client w1)
    /\ size (published (client w2)) = 4%nat.
Proof.
  assert (Hff : fault_free (World (Engine ∅ [] []) [])) by constructor.
  destruct (register_workflows_idempotent (World (Engine ∅ [] []) []) Hff)
    as (w1 & w2 & H1 & _ & H2 & Heq & _ & _ & _ & _ & _ & Hfour).
  exists w1, w2. repeat split; try assumption.
  apply Hfour. simpl. set_solver.
Defined.



End WorkflowFacts.

(** ** Worker start-up *)

Module StartupFacts.
Import Py Workers.

Lemma start_served worker (f : fleet) rest :
  start_faults f = None :: rest ->
  start worker f
  = (Return tt,
     Fleet (running f ++ [task_def_name worker])
           (start_calls f ++ [task_def_name worker]) rest (fleet_logger f)).
Proof. intros H. unfold start. rewrite H. reflexivity. Qed.

Lemma start_refused worker (f : fleet) e rest :
  start_faults f = Some e :: rest ->
  start worker f
  = (Raise e,
     Fleet (running f) (start_calls f ++ [task_def_name worker]) rest
           (fleet_logger f)).
Proof. intros H. unfold start. rewrite H. reflexivity. Qed.


(** The loop, when every start is served. *)
Lemma start_all_served workers : forall (f : fleet),
  Forall (fun o => o = None) (start_faults f) ->
  start_all workers f
  = (Return tt,
     Fleet (running f ++ map task_def_name workers)
           (start_calls f ++ map task_def_name workers)
           (drop (length workers) (start_faults f))
           (fleet_logger f ++ started_log workers)).
Proof.
  induction workers as [|w0 ws IH]; intros f Hf.
  - destruct f; simpl. unfold ret. rewrite !app_nil_r. reflexivity.
  - cbn [start_all]. unfold bind at 1. unfold try_except, bind at 1.
    destruct f as [run calls faults lg]. simpl in Hf.
    destruct faults as [|o rest].
    + unfold start at 1. cbn [running start_calls start_faults fleet_logger].
      unfold fleet_log at 1. cbn [running start_calls start_faults fleet_logger].
      rewrite IH by constructor.
      cbn [running start_calls start_faults fleet_logger map started_log length].
      rewrite <- !app_assoc, !drop_nil. reflexivity.
    + inversion Hf as [|? ? Ho Hrest]; subst.
      unfold start at 1. cbn [running start_calls start_faults fleet_logger].
      unfold fleet_log at 1. cbn [running start_calls start_faults fleet_logger].
      rewrite IH by exact Hrest.
      cbn [running start_calls start_faults fleet_logger map started_log length drop].
      rewrite <- !app_assoc. reflexivity.
Qed.





End StartupFacts.

(** ** The setup-scheduled-scan handler *)

Module HandlerFacts.
Import Py Workers.

Section Setup.

Context {ScanId ScanData : Type}.
Variable str_id : ScanId -> string.
Variable serializer_data : @Scan ScanId -> ScanData.
Variable get_next_execution_datetime :
  string -> string -> @world ScanId -> outcome Z.

Abbreviation Scan := (@Scan ScanId).
Abbreviation world := (@world ScanId).
Abbreviation setup :=
  (setup_scheduled_scan_task str_id serializer_data get_next_execution_datetime).

(** What the first query matches, field by field. *)
Lemma executing_today_spec tenant provider task today (s : Scan) :
  executing_today tenant provider task today s = true
  <-> tenant_id s = tenant
      /\ provider_id s = provider
      /\ trigger s = TriggerChoices.SCHEDULED
      /\ state s = StateChoices.EXECUTING
      /\ scheduler_task_id s = Some task
      /\ exists dt, scheduled_at s = Some dt /\ date dt = today.
Proof.
  unfold executing_today.
  rewrite !andb_true_iff, !bool_decide_eq_true.
  destruct (scheduled_at s) as [dt|].
  - rewrite bool_decide_eq_true. split.
    + intros [[[[[? ?] ?] ?] ?] ?]. repeat split; try assumption.
      exists dt. split; [reflexivity | assumption].
    + intros (? & ? & ? & ? & ? & dt' & [= <-] & ?). repeat split; assumption.
  - split.
    + intros [_ ?]. discriminate.
    + intros (_ & _ & _ & _ & _ & dt' & ? & _). discriminate.
Qed.

(** What [get_or_create] matches, field by field: there is no condition
    on [scheduled_at]. *)
Lemma reusable_spec tenant provider task (s : Scan) :
  reusable tenant provider task s = true
  <-> tenant_id s = tenant
      /\ provider_id s = provider
      /\ trigger s = TriggerChoices.SCHEDULED
      /\ (state s = StateChoices.SCHEDULED \/ state s = StateChoices.AVAILABLE)
      /\ scheduler_task_id s = Some task.
Proof.
  unfold reusable.
  rewrite !andb_true_iff, orb_true_iff, !bool_decide_eq_true. tauto.
Qed.

Lemma first_Some {A} (p : A -> bool) (rows : list A) (r : A) :
  first p rows = Some r -> In r rows /\ p r = true.
Proof.
  unfold first. intros H.
  assert (Hin : In r (List.filter p rows)).
  { destruct (List.filter p rows) as [|x l]; [discriminate|].
    injection H as ->. left. reflexivity. }
  apply filter_In in Hin. exact Hin.
Qed.


Lemma first_None {A} (p : A -> bool) (rows : list A) :
  (forall s, In s rows -> p s = false) -> first p rows = None.
Proof.
  intros H. unfold first.
  destruct (List.filter p rows) as [|x l] eqn:Hf; [reflexivity|].
  assert (Hin : In x (List.filter p rows)) by (rewrite Hf; left; reflexivity).
  apply filter_In in Hin as [Hin Hp]. rewrite (H x Hin) in Hp. discriminate.
Qed.

Lemma filter_nil {A} (p : A -> bool) (rows : list A) :
  (forall s, In s rows -> p s = false) -> List.filter p rows = [].
Proof.
  intros H. induction rows as [|x l IH]; [reflexivity|].
  simpl. rewrite (H x) by (left; reflexivity).
  apply IH. intros s Hs. apply H. right. exact Hs.
Qed.

Lemma get_missing {A} model (p : A -> bool) (rows : list A) :
  (forall s, In s rows -> p s = false) ->
  get model p rows = Raise (DoesNotExist model).
Proof. intros H. unfold get. rewrite (filter_nil _ _ H). reflexivity. Qed.

Lemma get_Return {A} model (p : A -> bool) (rows : list A) (r : A) :
  get model p rows = Return r <-> List.filter p rows = [r].
Proof.
  unfold get. destruct (List.filter p rows) as [|x [|y l]]; split;
    intros H; try discriminate; congruence.
Qed.

Lemma sub_days_in_range dt :
  datetime_min + MICROSECONDS_PER_DAY <= dt <= datetime_max ->
  sub_days dt 1 = Return (dt - MICROSECONDS_PER_DAY).
Proof.
  intros [Hlo Hhi]. unfold sub_days.
  replace (dt - 1 * MICROSECONDS_PER_DAY) with (dt - MICROSECONDS_PER_DAY) by lia.
  assert (H : (datetime_min <=? dt - MICROSECONDS_PER_DAY)
              && (dt - MICROSECONDS_PER_DAY <=? datetime_max) = true).
  { apply andb_true_iff. split; apply Z.leb_le;
      unfold MICROSECONDS_PER_DAY, datetime_min, datetime_max in *; lia. }
  rewrite H. reflexivity.
Qed.


(** C4.  When no scheduling task carries the provider's well-known
    name, the handler raises the failure of the lookup,
    [PeriodicTask.DoesNotExist], after logging it; it returns no
    result, and the tables are unchanged: no scan is created. *)
Theorem missing_schedule_is_raised
    (ctx : WorkerContext) (now : Z) (pk : ScanId) (w : world)
    (tenant provider : string) :
  ctx "tenant_id" = Return tenant ->
  ctx "provider_id" = Return provider ->
  (forall p, In p (periodic_tasks w) ->
             pt_name p <> "scan-perform-scheduled-" +:+ provider) ->
  setup ctx now pk w
  = (Raise (DoesNotExist "PeriodicTask"),
     World (periodic_tasks w) (scans w)
           (logger w
            ++ [Log ERROR ("Error in setup_scheduled_scan_task: "
                           +:+ "PeriodicTask matching query does not exist.")])).
Proof.
  intros Ht Hp Hnone.
  assert (Hget : get "PeriodicTask" (named_for provider) (periodic_tasks w)
                 = Raise (DoesNotExist "PeriodicTask")).
  { apply get_missing. intros p Hin. unfold named_for.
    apply bool_decide_eq_false. exact (Hnone p Hin). }
  unfold setup_scheduled_scan_task, try_except, bind, query, rls_transaction.
  rewrite Ht, Hp, Hget. reflexivity.
Qed.

(** The handler on the path past the duplicate check, up to the
    outcome of [get_or_create]. *)
Lemma setup_past_duplicate_check
    (ctx : WorkerContext) (now : Z) (pk : ScanId) (w : world)
    (tenant provider : string) (task : PeriodicTask) (nxt : Z) :
  ctx "tenant_id" = Return tenant ->
  ctx "provider_id" = Return provider ->
  get "PeriodicTask" (named_for provider) (periodic_tasks w) = Return task ->
  (forall s, In s (scans w) ->
     executing_today tenant provider (pt_id task) (date now) s = false) ->
  get_next_execution_datetime "scheduled" provider w = Return nxt ->
  datetime_min + MICROSECONDS_PER_DAY <= nxt <= datetime_max ->
  forall created w',
    get_or_create (reusable tenant provider (pt_id task))
      (new_scan pk tenant provider (pt_id task) (nxt - MICROSECONDS_PER_DAY)) w
    = (Return created, w') ->
    setup ctx now pk w
    = (Return ({[ "scan_id" := RStr (str_id (id (fst created)));
                  "duplicate" := RBool false ]} : gmap string result_value), w').
Proof.
  intros Ht Hp Htask Hnone Hnext Hrange created w' Hgoc.
  unfold setup_scheduled_scan_task, try_except, bind, query, rls_transaction.
  rewrite Ht, Hp, Htask.
  rewrite (first_None _ _ Hnone), Hnext, (sub_days_in_range _ Hrange), Hgoc.
  reflexivity.
Qed.

(** The creating branch: nothing matches the lookup of
    [get_or_create]. *)
Lemma setup_creates
    (ctx : WorkerContext) (now : Z) (pk : ScanId) (w : world)
    (tenant provider : string) (task : PeriodicTask) (nxt : Z) :
  ctx "tenant_id" = Return tenant ->
  ctx "provider_id" = Return provider ->
  get "PeriodicTask" (named_for provider) (periodic_tasks w) = Return task ->
  (forall s, In s (scans w) ->
     executing_today tenant provider (pt_id task) (date now) s = false) ->
  get_next_execution_datetime "scheduled" provider w = Return nxt ->
  datetime_min + MICROSECONDS_PER_DAY <= nxt <= datetime_max ->
  (forall s, In s (scans w) ->
     reusable tenant provider (pt_id task) s = false) ->
  setup ctx now pk w
  = (Return ({[ "scan_id" := RStr (str_id pk);
                "duplicate" := RBool false ]} : gmap string result_value),
     World (periodic_tasks w)
           (scans w ++ [new_scan pk tenant provider (pt_id task)
                                 (nxt - MICROSECONDS_PER_DAY)])
           (logger w)).
Proof.
  intros Ht Hp Htask Hnone Hnext Hrange Hfresh.
  apply (setup_past_duplicate_check ctx now pk w tenant provider task nxt
           Ht Hp Htask Hnone Hnext Hrange
           (new_scan pk tenant provider (pt_id task)
                     (nxt - MICROSECONDS_PER_DAY), true)).
  unfold get_or_create. rewrite (get_missing _ _ _ Hfresh). reflexivity.
Qed.

(** X12.  When several scans match the lookup, [get] inside [get_or_create]
    raises [MultipleObjectsReturned]; the handler logs and re-raises it and
    the tables are unchanged. *)
Lemma setup_ambiguous
    (ctx : WorkerContext) (now : Z) (pk : ScanId) (w : world)
    (tenant provider : string) (task : PeriodicTask) (nxt : Z)
    (s1 s2 : Scan) (more : list Scan) :
  ctx "tenant_id" = Return tenant ->
  ctx "provider_id" = Return provider ->
  get "PeriodicTask" (named_for provider) (periodic_tasks w) = Return task ->
  (forall s, In s (scans w) ->
     executing_today tenant provider (pt_id task) (date now) s = false) ->
  get_next_execution_datetime "scheduled" provider w = Return nxt ->
  datetime_min + MICROSECONDS_PER_DAY <= nxt <= datetime_max ->
  List.filter (reusable tenant provider (pt_id task)) (scans w) = s1 :: s2 :: more ->
  exists e,
    exn_class e = "MultipleObjectsReturned"
    /\ setup ctx now pk w
       = (Raise e,
          World (periodic_tasks w) (scans w)
                (logger w ++ [Log ERROR ("Error in setup_scheduled_scan_task: "
                                         +:+ str_exn e)])).
Proof.
  intros Ht Hp Htask Hnone Hnext Hrange Hmany.
  exists (MultipleObjectsReturned "Scan" (length (s1 :: s2 :: more))).
  split; [reflexivity|].
  unfold setup_scheduled_scan_task, try_except, bind, query, rls_transaction.
  rewrite Ht, Hp, Htask.
  rewrite (first_None _ _ Hnone), Hnext, (sub_days_in_range _ Hrange).
  unfold get_or_create, get. rewrite Hmany.
  reflexivity.
Qed.


(** The keys of a returned result go with its duplicate marker: three
    entries when it is True, two when it is False. *)
Lemma result_shape (ctx : WorkerContext) (now : Z) (pk : ScanId) (w w' : world)
    (res : gmap string result_value) :
  setup ctx now pk w = (Return res, w') ->
  (res !! "duplicate" = Some (RBool true)
   /\ dom res = {[ "scan_id"; "duplicate"; "result" ]})
  \/ (res !! "duplicate" = Some (RBool false)
      /\ dom res = {[ "scan_id"; "duplicate" ]}).
Proof.
  unfold setup_scheduled_scan_task, try_except, bind, query, rls_transaction,
    log, ret, raise.
  destruct (ctx "tenant_id") as [tenant|e]; [|discriminate].
  destruct (ctx "provider_id") as [provider|e]; [|discriminate].
  destruct (get "PeriodicTask" (named_for provider) (periodic_tasks w))
    as [task|e]; [|discriminate].
  destruct (first _ (scans w)) as [existing|].
  - intros [= <- _]. left. split; [by simplify_map_eq|].
    rewrite !dom_insert_L, ?dom_singleton_L, ?dom_empty_L. set_solver.
  - destruct (get_next_execution_datetime "scheduled" provider w)
      as [nxt|e]; [|discriminate].
    destruct (sub_days nxt 1) as [scheduled|e]; [|discriminate].
    destruct (get_or_create _ _ w) as [[created|e] w1]; [|discriminate].
    intros [= <- _]. right. split; [by simplify_map_eq|].
    rewrite !dom_insert_L, ?dom_singleton_L, ?dom_empty_L. set_solver.
Qed.

(** C10.  On the creating branch (scheduling task found, no scan
    EXECUTING for today, no scan that [get_or_create] could reuse) the
    handler returns, and the one scan it has added carries the name
    "Daily scheduled scan"; and every result the handler returns with
    duplicate = False has the two entries scan_id and duplicate and
    no entry result. *)
Theorem created_scan_is_named
    (ctx : WorkerContext) (now : Z) (pk : ScanId) (w : world)
    (tenant provider : string) (task : PeriodicTask) (nxt : Z) :
  ctx "tenant_id" = Return tenant ->
  ctx "provider_id" = Return provider ->
  get "PeriodicTask" (named_for provider) (periodic_tasks w) = Return task ->
  (forall s, In s (scans w) ->
     executing_today tenant provider (pt_id task) (date now) s = false) ->
  get_next_execution_datetime "scheduled" provider w = Return nxt ->
  datetime_min + MICROSECONDS_PER_DAY <= nxt <= datetime_max ->
  (forall s, In s (scans w) ->
     reusable tenant provider (pt_id task) s = false) ->
  (exists row res w',
     setup ctx now pk w = (Return res, w')
     /\ scans w' = scans w ++ [row]
     /\ id row = pk
     /\ name row = Some "Daily scheduled scan"
     /\ res !! "scan_id" = Some (RStr (str_id (id row)))
     /\ res !! "duplicate" = Some (RBool false))
  /\ (forall ctx0 now0 pk0 w0 res0 w0',
        setup ctx0 now0 pk0 w0 = (Return res0, w0') ->
        res0 !! "duplicate" = Some (RBool false) ->
        dom res0 = {[ "scan_id"; "duplicate" ]} /\ res0 !! "result" = None).
Proof.
  intros Ht Hp Htask Hnone Hnext Hrange Hfresh. split.
  - pose proof (setup_creates ctx now pk w tenant provider
                  task nxt Ht Hp Htask Hnone Hnext Hrange Hfresh) as Hrun.
    eexists _, _, _. split; [exact Hrun|].
    cbn [scans]. split; [reflexivity|]. split; [reflexivity|].
    split; [reflexivity|]. split; by simplify_map_eq.
  - intros ctx0 now0 pk0 w0 res0 w0' Hrun Hdup.
    destruct (result_shape _ _ _ _ _ _ Hrun) as [[Hd _]|[_ Hdom]].
    + rewrite Hd in Hdup. discriminate.
    + split; [exact Hdom|].
      apply not_elem_of_dom. rewrite Hdom. set_solver.
Qed.

End Setup.

Import Scenario.


Lemma missing_schedule_is_raised_witness :
  setup ctx now 9%nat (db [] [finished_scan])
  = (Raise (DoesNotExist "PeriodicTask"),
     World [] [finished_scan]
           [Log ERROR ("Error in setup_scheduled_scan_task: "
                       +:+ "PeriodicTask matching query does not exist.")]).
Proof.
  apply (missing_schedule_is_raised str_id serializer_data
           get_next_execution_datetime ctx now 9%nat (db [] [finished_scan])
           "t1" "p1"); try reflexivity.
  intros p [].
Defined.

Lemma no_scan_executing_today (rows : list (@Scan nat)) :
  forallb (fun s => negb (executing_today "t1" "p1" 7 (date now) s)) rows = true ->
  forall s, In s rows -> executing_today "t1" "p1" 7 (date now) s = false.
Proof.
  intros H s Hin. rewrite forallb_forall in H.
  apply negb_true_iff. exact (H s Hin).
Qed.

Lemma no_scan_reusable (rows : list (@Scan nat)) :
  forallb (fun s => negb (reusable "t1" "p1" 7 s)) rows = true ->
  forall s, In s rows -> reusable "t1" "p1" 7 s = false.
Proof.
  intros H s Hin. rewrite forallb_forall in H.
  apply negb_true_iff. exact (H s Hin).
Qed.

Lemma next_execution_in_range :
  datetime_min + MICROSECONDS_PER_DAY <= now + MICROSECONDS_PER_DAY <= datetime_max.
Proof. unfold datetime_min, datetime_max, MICROSECONDS_PER_DAY, now. lia. Qed.


Lemma created_scan_is_named_witness :
  (exists row res w',
     setup ctx now 9%nat (db [schedule] [finished_scan]) = (Return res, w')
     /\ scans w' = [finished_scan; row]
     /\ id row = 9%nat
     /\ name row = Some "Daily scheduled scan"
     /\ res !! "scan_id" = Some (RStr (str_id (id row)))
     /\ res !! "duplicate" = Some (RBool false))
  /\ (forall res w',
        setup ctx now 9%nat (db [schedule] [finished_scan; stale_scan])
        = (Return res, w') ->
        res !! "duplicate" = Some (RBool false) ->
        dom res = {[ "scan_id"; "duplicate" ]} /\ res !! "result" = None).
Proof.
  pose proof (created_scan_is_named str_id serializer_data
                get_next_execution_datetime ctx now 9%nat
                (db [schedule] [finished_scan])
                "t1" "p1" schedule (now + MICROSECONDS_PER_DAY)
                eq_refl eq_refl eq_refl
                (no_scan_executing_today [finished_scan] eq_refl)
                eq_refl next_execution_in_range
                (no_scan_reusable [finished_scan] eq_refl)) as [Hnew Hshape].
  split.
  - exact Hnew.
  - intros res w'. apply Hshape.
Defined.

End HandlerFacts.

(** ** Further properties of the configuration, registration and start-up *)

Module ConfigExtra.
Import Py Config.

(** X1.  Whatever the TLS settings, the configuration holds the host and
    the port under bootstrap_host and bootstrap_port; it has either these
    two entries or these two and the three TLS entries. *)
Theorem bootstrap_entries_kept host port ca cert key :
  let cfg := LITTLEHORSE_CONFIG host port ca cert key in
  cfg !! "bootstrap_host" = Some (PStr host)
  /\ cfg !! "bootstrap_port" = Some (PInt port)
  /\ (dom cfg = {[ "bootstrap_host"; "bootstrap_port" ]}
      \/ dom cfg = {[ "bootstrap_host"; "bootstrap_port" ]} ∪ tls_keys).
Proof.
  intros cfg. subst cfg.
  destruct (truthy (of_env ca) && truthy (of_env cert) && truthy (of_env key))
    eqn:Hall.
  - rewrite (ConfigFacts.config_with_tls _ _ _ _ _ Hall). unfold update3, tls_keys.
    split; [by simplify_map_eq|]. split; [by simplify_map_eq|].
    right. rewrite !dom_insert_L, dom_empty_L. set_solver.
  - rewrite (ConfigFacts.config_without_tls _ _ _ _ _ Hall).
    split; [by simplify_map_eq|]. split; [by simplify_map_eq|].
    left. rewrite !dom_insert_L, dom_empty_L. set_solver.
Qed.

End ConfigExtra.

Module RegistrationExtra.
Import Py Workflows.

(** X2.  Whatever the engine answers, [register_workflows] leaves every
    workflow published under another name as it was, withdraws nothing,
    and sends its publish requests for a non-empty prefix of the four
    names; when it returns normally it has sent exactly the four. *)
Theorem register_workflows_frame (w w' : world) (out : outcome unit) :
  register_workflows w = (out, w') ->
  (forall other, other ∉ workflow_names ->
     published (client w') !! other = published (client w) !! other)
  /\ dom (published (client w)) ⊆ dom (published (client w'))
  /\ (exists n, put_calls (client w')
                = put_calls (client w) ++ take n workflow_names
                /\ (1 <= n <= 4)%nat
                /\ (out = Return tt -> n = 4%nat)).
Proof.
  destruct w as [[pub calls faults] lg]. cbn [client published put_calls].
  change workflow_names
    with ["scan"; "scheduled-scan"; "provider-deletion"; "tenant-deletion"].
  intros Hrun.
  assert (Hne : forall other : string,
            other ∉ ["scan"; "scheduled-scan"; "provider-deletion"; "tenant-deletion"] ->
            other <> "scan" /\ other <> "scheduled-scan"
            /\ other <> "provider-deletion" /\ other <> "tenant-deletion").
  { intros other Hn. repeat split; intros ->; apply Hn; set_solver. }
  destruct faults as [|[e1|] [|[e2|] [|[e3|] [|[e4|] rest]]]];
    unfold register_workflows, try_except, bind, put_wf_spec, log, raise in Hrun;
    cbn in Hrun; injection Hrun as <- <-; cbn [client published put_calls];
    (split; [intros other Hn; destruct (Hne other Hn) as (? & ? & ? & ?);
             by simplify_map_eq|]);
    (split; [rewrite ?dom_insert_L; set_solver|]);
    first [ exists 1%nat; split; [rewrite <- ?app_assoc; reflexivity|]
          | exists 2%nat; split; [rewrite <- ?app_assoc; reflexivity|]
          | exists 3%nat; split; [rewrite <- ?app_assoc; reflexivity|]
          | exists 4%nat; split; [rewrite <- ?app_assoc; reflexivity|] ];
    (split; [lia|]); intros Hx; first [reflexivity | discriminate Hx].
Qed.

(** A call that returns has published the four definitions. *)
Lemma register_workflows_returns (w w' : world) :
  register_workflows w = (Return tt, w') ->
  published (client w') = publish_all definitions (published (client w)).
Proof.
  destruct w as [[pub calls faults] lg]. cbn [client published].
  destruct faults as [|[e1|] [|[e2|] [|[e3|] [|[e4|] rest]]]];
    unfold register_workflows, try_except, bind, put_wf_spec, log, raise;
    cbn; intros Hrun; try discriminate Hrun;
    injection Hrun as <-; reflexivity.
Qed.

Lemma register_workflows_frame_witness :
  published (client (snd (register_workflows
     (World (Engine {[ "legacy" := empty_wf ]} [] [None; Some (Exn "LHError" "down")])
            [])))) !! "legacy"
  = Some empty_wf.
Proof.
  destruct (register_workflows
              (World (Engine {[ "legacy" := empty_wf ]} [] [None; Some (Exn "LHError" "down")])
                     [])) as [out w'] eqn:Hrun.
  destruct (register_workflows_frame _ _ _ Hrun) as [Hframe _].
  cbn [snd]. rewrite Hframe.
  - reflexivity.
  - change workflow_names
      with ["scan"; "scheduled-scan"; "provider-deletion"; "tenant-deletion"].
    set_solver.
Defined.

End RegistrationExtra.

Module StartupExtra.
Import Py Workers.

(** The loop on any list of workers and any engine: the workers that run
    afterwards are those that ran before and a prefix of the list; start
    was requested of that prefix and, when the loop raises, of the one
    worker after it. *)
Lemma start_all_prefix workers : forall (f f' : fleet) (out : outcome unit),
  start_all workers f = (out, f') ->
  exists n,
    (n <= length workers)%nat
    /\ running f' = running f ++ map task_def_name (take n workers)
    /\ match out with
       | Return _ =>
           n = length workers
           /\ start_calls f' = start_calls f ++ map task_def_name workers
       | Raise e =>
           (n < length workers)%nat
           /\ start_calls f' = start_calls f ++ map task_def_name (take (S n) workers)
       end.
Proof.
  induction workers as [|w0 ws IH]; intros f f' out Hrun.
  - cbn in Hrun. injection Hrun as <- <-. exists 0%nat.
    cbn. rewrite !app_nil_r. repeat split; lia.
  - cbn [start_all] in Hrun. unfold bind at 1 in Hrun.
    unfold try_except, bind at 1 in Hrun.
    destruct f as [run calls faults lg].
    destruct faults as [|[e|] rest]; unfold start at 1 in Hrun;
      cbn [running start_calls start_faults fleet_logger] in Hrun.
    + unfold fleet_log at 1 in Hrun.
      cbn [running start_calls start_faults fleet_logger] in Hrun.
      apply IH in Hrun as (n & Hn & Hrunning & Hout).
      cbn [running start_calls] in *. exists (S n).
      split; [cbn; lia|]. split; [rewrite Hrunning, <- app_assoc; reflexivity|].
      destruct out; destruct Hout as [Hn' Hcalls]; (split; [cbn; lia|]);
        rewrite Hcalls, <- app_assoc; reflexivity.
    + unfold bind, fleet_log, raise in Hrun. cbn in Hrun.
      injection Hrun as <- <-. exists 0%nat. cbn.
      rewrite app_nil_r. repeat split; lia.
    + unfold fleet_log at 1 in Hrun.
      cbn [running start_calls start_faults fleet_logger] in Hrun.
      apply IH in Hrun as (n & Hn & Hrunning & Hout).
      cbn [running start_calls] in *. exists (S n).
      split; [cbn; lia|]. split; [rewrite Hrunning, <- app_assoc; reflexivity|].
      destruct out; destruct Hout as [Hn' Hcalls]; (split; [cbn; lia|]);
        rewrite Hcalls, <- app_assoc; reflexivity.
Qed.

(** X3.  Whatever the engine answers, after [start_task_workers] the
    running workers are those that ran before followed by a prefix of the
    ten workers in their order of construction; start was requested of
    exactly that prefix when the call returns (then the prefix is all ten
    and the ten workers are the value returned), and of that prefix and
    the next worker when it raises. *)
Theorem start_task_workers_prefix (f f' : fleet)
    (out : outcome (list LHTaskWorker)) :
  start_task_workers f = (out, f') ->
  exists n,
    (n <= 10)%nat
    /\ running f' = running f ++ map task_def_name (take n task_workers)
    /\ match out with
       | Return started =>
           n = 10%nat /\ started = task_workers /\ length started = 10%nat
           /\ start_calls f' = start_calls f ++ map task_def_name task_workers
       | Raise e =>
           (n < 10)%nat
           /\ start_calls f'
              = start_calls f ++ map task_def_name (take (S n) task_workers)
       end.
Proof.
  unfold start_task_workers, start_workers. unfold bind at 1.
  unfold fleet_log at 1. unfold bind at 1.
  destruct (start_all task_workers _) as [[[]|e] f1] eqn:Hloop; intros Hrun;
    cbn in Hrun; injection Hrun as <- <-;
    apply start_all_prefix in Hloop as (n & Hn & Hrunning & Hout);
    cbn [running start_calls fleet_logger] in *; exists n;
    (split; [exact Hn|]); (split; [exact Hrunning|]).
  - destruct Hout as [-> Hcalls]. repeat split; assumption.
  - exact Hout.
Qed.

Lemma start_task_workers_prefix_witness :
  exists n,
    (n <= 10)%nat
    /\ running (snd (start_task_workers
                       (Fleet ["legacy"] [] [None; Some (Exn "OSError" "refused")] [])))
       = ["legacy"] ++ map task_def_name (take n task_workers).
Proof.
  destruct (start_task_workers
              (Fleet ["legacy"] [] [None; Some (Exn "OSError" "refused")] []))
    as [out f'] eqn:Hrun.
  destruct (start_task_workers_prefix _ _ _ Hrun) as (n & Hn & Hrunning & _).
  exists n. split; [exact Hn | exact Hrunning].
Defined.

(** X4.  With an engine that starts every worker, [start_task_workers]
    returns the ten workers, all ten are running, in the order of their
    construction, start was requested ten times, and the log has the
    announcement followed by one record per worker. *)
Theorem start_task_workers_all_started (f : fleet) :
  Forall (fun o => o = None) (start_faults f) ->
  exists f',
    start_task_workers f = (Return task_workers, f')
    /\ running f' = running f ++ map task_def_name task_workers
    /\ start_calls f' = start_calls f ++ map task_def_name task_workers
    /\ length (start_calls f') = (length (start_calls f) + 10)%nat
    /\ fleet_logger f'
       = fleet_logger f ++ [Log INFO "Starting 10 LittleHorse task workers"]
         ++ started_log task_workers.
Proof.
  intros Hff. eexists. split.
  - unfold start_task_workers, start_workers. unfold bind at 1.
    unfold fleet_log at 1. unfold bind at 1.
    rewrite StartupFacts.start_all_served by exact Hff. reflexivity.
  - cbn [running start_calls fleet_logger]. split; [reflexivity|].
    split; [reflexivity|]. split; [rewrite length_app; reflexivity|].
    rewrite <- app_assoc. reflexivity.
Qed.

Lemma start_task_workers_all_started_witness :
  exists f',
    start_task_workers (Fleet [] [] [] []) = (Return task_workers, f')
    /\ length (running f') = 10%nat.
Proof.
  destruct (start_task_workers_all_started (Fleet [] [] [] []) (List.Forall_nil _))
    as (f' & Hrun & Hrunning & _).
  exists f'. split; [exact Hrun|]. rewrite Hrunning. reflexivity.
Defined.

End StartupExtra.

(** ** The delegating handlers *)

Module TaskFacts.
Import Py Tasks.

Section Delegating.

Context {Value : Type}.
Variable empty_list : Value.
Variable domain : string -> list (string * Value) -> outcome Value.

Abbreviation Context := (@Tasks.Context Value).
Abbreviation jobs := (@Tasks.jobs Value).
Abbreviation delegate := (Tasks.delegate empty_list domain).

(** Unfolds a handler down to the context lookups and the domain call. *)
Ltac open_handler :=
  unfold perform_prowler_scan_task, perform_scan_summary_task,
    create_compliance_requirements_task, generate_outputs_task,
    delete_provider_task, delete_tenant_task, check_provider_connection_task,
    check_lighthouse_connection_task, backfill_scan_resource_summaries_task,
    log_and_raise, try_except, bind, var, var_or, call, job_log, ret, raise.




(** The task nodes of the four published definitions. *)
Lemma task_nodes_of_definitions task kwargs d :
  In d Workflows.definitions ->
  In (Workflows.ExecuteTask task kwargs) (Workflows.wf_nodes (snd d Workflows.empty_wf)) ->
  (task, map fst kwargs)
  ∈ [ ("perform-prowler-scan",
       ["tenant_id"; "scan_id"; "provider_id"; "checks_to_execute"]);
      ("create-compliance-requirements", ["tenant_id"; "scan_id"]);
      ("perform-scan-summary", ["tenant_id"; "scan_id"]);
      ("generate-outputs", ["tenant_id"; "scan_id"; "provider_id"]);
      ("setup-scheduled-scan", ["tenant_id"; "provider_id"]);
      ("delete-provider", ["tenant_id"; "provider_id"]);
      ("delete-tenant", ["tenant_id"]) ].
Proof.
  intros Hd Hn.
  repeat (destruct Hd as [<- | Hd]; [cbn in Hn|]); [ | | | | destruct Hd];
    repeat (destruct Hn as [Hn | Hn]; [try discriminate Hn; injection Hn as <- <-|]);
    try destruct Hn; cbn; set_solver.
Qed.

(** X7.  Every task that one of the four workflow definitions executes
    has a registered worker, and the definition binds every variable the
    worker's handler reads: for a task other than setup-scheduled-scan,
    in a context that answers the names bound at the task node, the
    handler gets to its domain operation, calling it once. *)
Theorem bound_variables_reach_domain (d : string * (Workflows.WorkflowSpec -> Workflows.WorkflowSpec))
    (task : string) (kwargs : list (string * Workflows.expr)) :
  In d Workflows.definitions ->
  In (Workflows.ExecuteTask task kwargs) (Workflows.wf_nodes (snd d Workflows.empty_wf)) ->
  exists m,
    method_for task = Some m
    /\ (task = "setup-scheduled-scan"
        /\ m = Workers.setup_scheduled_scan
        /\ map fst kwargs = ["tenant_id"; "provider_id"]
        \/ exists handler,
             delegate m = Some handler
             /\ forall (ctx : Context) (w : jobs),
                  answers ctx (map fst kwargs) ->
                  exists callee args,
                    job_calls (snd (handler ctx w)) = job_calls w ++ [(callee, args)]).
Proof.
  intros Hd Hn.
  pose proof (task_nodes_of_definitions task kwargs d Hd Hn) as Hcases.
  assert (Hread : forall (ctx : Context) k ks, answers ctx ks -> In k ks ->
                    (exists v, get_variable ctx k = Return v)
                    /\ (forall dflt, exists v, get_variable_or ctx k dflt = Return v))
    by (intros ctx k ks Ha Hk; exact (Ha k Hk)).
  repeat (apply elem_of_cons in Hcases as [[= -> ->] | Hcases]);
    [ | | | | | | | apply elem_of_nil in Hcases; destruct Hcases ];
    eexists; (split; [reflexivity|]);
    try (left; repeat split; reflexivity);
    right; eexists; (split; [reflexivity|]); intros ctx w Ha;
    open_handler;
    repeat match goal with
           | |- context [get_variable ctx ?k] =>
               let v := fresh "v" in let Hv := fresh "Hv" in
               destruct (proj1 (Hread ctx k _ Ha ltac:(cbn; tauto))) as [v Hv];
               rewrite Hv
           | |- context [get_variable_or ctx ?k ?dflt] =>
               let v := fresh "v" in let Hv := fresh "Hv" in
               destruct (proj2 (Hread ctx k _ Ha ltac:(cbn; tauto)) dflt) as [v Hv];
               rewrite Hv
           end;
    destruct (domain _ _); cbn; eauto.
Qed.

End Delegating.

Import Scenario2.



Lemma bound_variables_reach_domain_witness :
  exists m,
    method_for "create-compliance-requirements" = Some m
    /\ (("create-compliance-requirements" : string) = "setup-scheduled-scan"
        /\ m = Workers.setup_scheduled_scan
        /\ map fst [("tenant_id", Workflows.VarPath "tenant_id" "$");
                    ("scan_id", Workflows.VarPath "scan_id" "$")]
           = ["tenant_id"; "provider_id"]
        \/ exists handler,
             delegate "[]" job_domain m = Some handler
             /\ forall (ctx : @Tasks.Context string) (w : @Tasks.jobs string),
                  answers ctx (map fst [("tenant_id", Workflows.VarPath "tenant_id" "$");
                                        ("scan_id", Workflows.VarPath "scan_id" "$")]) ->
                  exists callee args,
                    job_calls (snd (handler ctx w)) = job_calls w ++ [(callee, args)]).
Proof.
  apply (bound_variables_reach_domain "[]" job_domain
           ("scan", Workflows.scan_wf) "create-compliance-requirements"
           [("tenant_id", Workflows.VarPath "tenant_id" "$");
            ("scan_id", Workflows.VarPath "scan_id" "$")]).
  - left. reflexivity.
  - right. left. reflexivity.
Defined.

End TaskFacts.

(** ** Further properties of the setup-scheduled-scan handler *)

Module HandlerExtra.
Import Py Workers Transitions HandlerFacts.

Section Setup.

Context {ScanId ScanData : Type}.
Variable str_id : ScanId -> string.
Variable serializer_data : @Scan ScanId -> ScanData.
Variable get_next_execution_datetime :
  string -> string -> @world ScanId -> outcome Z.

Abbreviation Scan := (@Scan ScanId).
Abbreviation world := (@world ScanId).
Abbreviation setup :=
  (setup_scheduled_scan_task str_id serializer_data get_next_execution_datetime).


(** X9.  A result the handler returns always names a scan of the tenant
    and provider it was invoked for: the context gave a tenant and a
    provider, a scheduling task with the provider's well-known name
    exists, and the scan whose identifier is returned is in the table,
    belongs to that tenant and provider, and was triggered by that
    schedule. *)
Theorem setup_result_scope (ctx : WorkerContext) (now : Z) (pk : ScanId)
    (w w' : world) (res : gmap string (@result_value ScanData)) :
  setup ctx now pk w = (Return res, w') ->
  exists tenant provider task r,
    ctx "tenant_id" = Return tenant
    /\ ctx "provider_id" = Return provider
    /\ In task (periodic_tasks w)
    /\ pt_name task = "scan-perform-scheduled-" +:+ provider
    /\ In r (scans w')
    /\ res !! "scan_id" = Some (RStr (str_id (id r)))
    /\ tenant_id r = tenant
    /\ provider_id r = provider
    /\ trigger r = TriggerChoices.SCHEDULED
    /\ scheduler_task_id r = Some (pt_id task).
Proof.
  unfold setup_scheduled_scan_task, try_except, bind, query, rls_transaction,
    get_or_create, log, ret, raise.
  destruct (ctx "tenant_id") as [tenant|e]; [|discriminate].
  destruct (ctx "provider_id") as [provider|e]; [|discriminate].
  destruct (get "PeriodicTask" (named_for provider) (periodic_tasks w))
    as [task|e] eqn:Htask; [|discriminate].
  assert (Ht : In task (periodic_tasks w)
               /\ pt_name task = "scan-perform-scheduled-" +:+ provider).
  { apply get_Return in Htask.
    assert (Hin : In task (List.filter (named_for provider) (periodic_tasks w)))
      by (rewrite Htask; left; reflexivity).
    apply filter_In in Hin as [Hin Hname]. split; [exact Hin|].
    unfold named_for in Hname. apply bool_decide_eq_true in Hname. exact Hname. }
  destruct Ht as [Htin Htname].
  destruct (first _ (scans w)) as [existing|] eqn:Hfirst.
  - intros [= <- <-]. cbn [scans].
    apply first_Some in Hfirst as [Hin Hmatch].
    apply executing_today_spec in Hmatch as (? & ? & ? & ? & ? & ?).
    exists tenant, provider, task, existing.
    repeat split; try assumption; by simplify_map_eq.
  - destruct (get_next_execution_datetime "scheduled" provider w)
      as [nxt|e]; [|discriminate].
    destruct (sub_days nxt 1) as [scheduled|e]; [|discriminate].
    destruct (get "Scan" _ (scans w)) as [s|e] eqn:Hget.
    + intros [= <- <-].
      apply get_Return in Hget.
      assert (Hin : In s (List.filter (reusable tenant provider (pt_id task)) (scans w)))
        by (rewrite Hget; left; reflexivity).
      apply filter_In in Hin as [Hin Hmatch].
      apply (reusable_spec serializer_data get_next_execution_datetime) in Hmatch
        as (? & ? & ? & ? & ?).
      exists tenant, provider, task, s.
      repeat split; try assumption; by simplify_map_eq.
    + destruct (String.eqb (exn_class e) "DoesNotExist"); [|discriminate].
      intros [= <- <-]. cbn [scans].
      exists tenant, provider, task,
        (new_scan pk tenant provider (pt_id task) scheduled).
      repeat split; try assumption; try reflexivity.
      apply in_or_app. right. left. reflexivity.
Qed.

Lemma new_scan_reusable (pk : ScanId) tenant provider task scheduled :
  reusable tenant provider task (new_scan pk tenant provider task scheduled) = true.
Proof.
  unfold reusable, new_scan. cbn.
  repeat case_bool_decide; try reflexivity; congruence.
Qed.

Lemma scheduled_not_executing tenant provider task today (s : Scan) :
  state s = StateChoices.SCHEDULED ->
  executing_today tenant provider task today s = false.
Proof.
  intros Hs. unfold executing_today. rewrite Hs.
  rewrite (bool_decide_eq_false_2 (StateChoices.SCHEDULED = StateChoices.EXECUTING))
    by discriminate.
  rewrite andb_false_r. reflexivity.
Qed.

Lemma started_scan_executing (pk : ScanId) tenant provider task scheduled :
  executing_today tenant provider task (date scheduled)
    (with_state StateChoices.EXECUTING (new_scan pk tenant provider task scheduled))
  = true.
Proof.
  unfold executing_today, with_state, new_scan. cbn.
  repeat case_bool_decide; try reflexivity; congruence.
Qed.

(** One day earlier is the day before. *)
Lemma date_sub_day dt : date (dt - MICROSECONDS_PER_DAY) = date dt - 1.
Proof.
  unfold date.
  replace (dt - MICROSECONDS_PER_DAY) with (dt + (-1) * MICROSECONDS_PER_DAY) by lia.
  rewrite Z.div_add by (unfold MICROSECONDS_PER_DAY; lia). lia.
Qed.

Lemma none_then_one {A} (p : A -> bool) (rows : list A) (r : A) :
  (forall s, In s rows -> p s = false) -> p r = true ->
  List.filter p (rows ++ [r]) = [r].
Proof.
  intros Hnone Hr. rewrite List.filter_app, (filter_nil _ _ Hnone). cbn.
  rewrite Hr. reflexivity.
Qed.

Lemma none_then_none {A} (p : A -> bool) (rows : list A) (r : A) :
  (forall s, In s rows -> p s = false) -> p r = false ->
  forall s, In s (rows ++ [r]) -> p s = false.
Proof.
  intros Hnone Hr s Hin. apply in_app_or in Hin as [Hin | [<- | []]]; auto.
Qed.

(** X10.  Invoked a second time, at any instant, on the tables the first
    invocation left after creating a scan, the handler creates nothing: it
    returns the same result, the identifier of the scan the first
    invocation created with duplicate = False. *)
Theorem setup_twice_creates_once (ctx : WorkerContext) (now now2 : Z)
    (pk pk2 : ScanId) (w : world) (tenant provider : string)
    (task : PeriodicTask) (nxt nxt2 : Z) :
  ctx "tenant_id" = Return tenant ->
  ctx "provider_id" = Return provider ->
  get "PeriodicTask" (named_for provider) (periodic_tasks w) = Return task ->
  (forall s, In s (scans w) ->
     executing_today tenant provider (pt_id task) (date now) s = false) ->
  (forall s, In s (scans w) ->
     executing_today tenant provider (pt_id task) (date now2) s = false) ->
  (forall s, In s (scans w) -> reusable tenant provider (pt_id task) s = false) ->
  get_next_execution_datetime "scheduled" provider w = Return nxt ->
  datetime_min + MICROSECONDS_PER_DAY <= nxt <= datetime_max ->
  let w1 := World (periodic_tasks w)
                  (scans w ++ [new_scan pk tenant provider (pt_id task)
                                        (nxt - MICROSECONDS_PER_DAY)])
                  (logger w) in
  get_next_execution_datetime "scheduled" provider w1 = Return nxt2 ->
  datetime_min + MICROSECONDS_PER_DAY <= nxt2 <= datetime_max ->
  exists res,
    setup ctx now pk w = (Return res, w1)
    /\ setup ctx now2 pk2 w1 = (Return res, w1)
    /\ res !! "scan_id" = Some (RStr (str_id pk))
    /\ res !! "duplicate" = Some (RBool false).
Proof.
  intros Ht Hp Htask Hnone Hnone2 Hfresh Hnext Hrange w1 Hnext2 Hrange2.
  eexists. split; [|split].
  - exact (setup_creates str_id serializer_data get_next_execution_datetime
             ctx now pk w tenant provider task nxt
             Ht Hp Htask Hnone Hnext Hrange Hfresh).
  - assert (Hnone1 : forall s, In s (scans w1) ->
              executing_today tenant provider (pt_id task) (date now2) s = false).
    { subst w1. cbn [scans]. apply none_then_none; [exact Hnone2|].
      apply scheduled_not_executing. reflexivity. }
    apply (setup_past_duplicate_check str_id serializer_data
             get_next_execution_datetime ctx now2 pk2 w1 tenant provider task nxt2
             Ht Hp Htask Hnone1 Hnext2 Hrange2
             (new_scan pk tenant provider (pt_id task) (nxt - MICROSECONDS_PER_DAY),
              false)).
    unfold get_or_create, get. subst w1. cbn [scans].
    rewrite (none_then_one _ _ _ Hfresh (new_scan_reusable _ _ _ _ _)).
    reflexivity.
  - split; by simplify_map_eq.
Qed.

(** X11.  The scan the handler creates is scheduled for the day before
    the next execution.  So once that scan is EXECUTING, an invocation on
    that day for the same tenant and provider finds it: the handler
    returns the identifier of that scan with duplicate = True and adds no
    scan. *)
Theorem started_scan_is_detected (ctx : WorkerContext) (now now2 : Z)
    (pk pk2 : ScanId) (w : world) (tenant provider : string)
    (task : PeriodicTask) (nxt : Z) (lg : list log_record)
    (row := new_scan pk tenant provider (pt_id task) (nxt - MICROSECONDS_PER_DAY))
    (w2 := World (periodic_tasks w)
                 (scans w ++ [with_state StateChoices.EXECUTING row]) lg) :
  ctx "tenant_id" = Return tenant ->
  ctx "provider_id" = Return provider ->
  get "PeriodicTask" (named_for provider) (periodic_tasks w) = Return task ->
  (forall s, In s (scans w) ->
     executing_today tenant provider (pt_id task) (date now) s = false) ->
  (forall s, In s (scans w) ->
     executing_today tenant provider (pt_id task) (date now2) s = false) ->
  (forall s, In s (scans w) -> reusable tenant provider (pt_id task) s = false) ->
  get_next_execution_datetime "scheduled" provider w = Return nxt ->
  datetime_min + MICROSECONDS_PER_DAY <= nxt <= datetime_max ->
  date now2 = date nxt - 1 ->
  (exists res w1,
     setup ctx now pk w = (Return res, w1)
     /\ scans w1 = scans w ++ [row]
     /\ res !! "scan_id" = Some (RStr (str_id pk))
     /\ res !! "duplicate" = Some (RBool false))
  /\ (exists res2 w3,
        setup ctx now2 pk2 w2 = (Return res2, w3)
        /\ scans w3 = scans w2
        /\ res2 !! "scan_id" = Some (RStr (str_id pk))
        /\ res2 !! "duplicate" = Some (RBool true)).
Proof.
  intros Ht Hp Htask Hnone Hnone2 Hfresh Hnext Hrange Hday. split.
  - eexists _, _. split.
    + exact (setup_creates str_id serializer_data get_next_execution_datetime
               ctx now pk w tenant provider task nxt
               Ht Hp Htask Hnone Hnext Hrange Hfresh).
    + cbn [scans]. split; [reflexivity|]. split; by simplify_map_eq.
  - assert (Hrow : executing_today tenant provider (pt_id task) (date now2)
                     (with_state StateChoices.EXECUTING row) = true).
    { rewrite Hday, <- date_sub_day. apply started_scan_executing. }
    eexists _, _. split.
    + unfold setup_scheduled_scan_task, try_except, bind, query, rls_transaction.
      rewrite Ht, Hp. subst w2. cbn [periodic_tasks scans logger].
      rewrite Htask. unfold first.
      rewrite (none_then_one _ _ _ Hnone2 Hrow).
      unfold log, ret. cbn. reflexivity.
    + cbn [scans]. split; [reflexivity|]. split; by simplify_map_eq.
Qed.

End Setup.

Import Scenario Scenario2.


(** The running scan of another tenant is not the one returned. *)
Lemma setup_result_scope_witness :
  exists tenant provider task r,
    ctx "tenant_id" = Return tenant
    /\ ctx "provider_id" = Return provider
    /\ In task [schedule]
    /\ pt_name task = "scan-perform-scheduled-" +:+ provider
    /\ In r [foreign_scan; running_scan]
    /\ ({[ "scan_id" := RStr (str_id 1%nat);
           "duplicate" := RBool true;
           "result" := RData (serializer_data running_scan) ]}
        : gmap string result_value) !! "scan_id" = Some (RStr (str_id (id r)))
    /\ tenant_id r = tenant
    /\ provider_id r = provider
    /\ trigger r = TriggerChoices.SCHEDULED
    /\ scheduler_task_id r = Some (pt_id task).
Proof.
  exact (setup_result_scope str_id serializer_data get_next_execution_datetime
           ctx now 9%nat (db [schedule] [foreign_scan; running_scan])
           (World [schedule] [foreign_scan; running_scan]
                  [Log WARNING "Scheduled scan already running for provider p1"])
           _ eq_refl).
Defined.

Lemma setup_twice_creates_once_witness :
  exists res,
    setup ctx now 9%nat (db [schedule] [finished_scan])
    = (Return res,
       World [schedule]
             [finished_scan;
              new_scan 9%nat "t1" "p1" 7
                       (now + MICROSECONDS_PER_DAY - MICROSECONDS_PER_DAY)] [])
    /\ setup ctx now 10%nat
         (World [schedule]
                [finished_scan;
                 new_scan 9%nat "t1" "p1" 7
                          (now + MICROSECONDS_PER_DAY - MICROSECONDS_PER_DAY)] [])
       = (Return res,
          World [schedule]
                [finished_scan;
                 new_scan 9%nat "t1" "p1" 7
                          (now + MICROSECONDS_PER_DAY - MICROSECONDS_PER_DAY)] [])
    /\ res !! "scan_id" = Some (RStr (str_id 9%nat))
    /\ res !! "duplicate" = Some (RBool false).
Proof.
  exact (setup_twice_creates_once str_id serializer_data get_next_execution_datetime
           ctx now now 9%nat 10%nat (db [schedule] [finished_scan])
           "t1" "p1" schedule (now + MICROSECONDS_PER_DAY) (now + MICROSECONDS_PER_DAY)
           eq_refl eq_refl eq_refl
           (no_scan_executing_today [finished_scan] eq_refl)
           (no_scan_executing_today [finished_scan] eq_refl)
           (no_scan_reusable [finished_scan] eq_refl)
           eq_refl next_execution_in_range eq_refl next_execution_in_range).
Defined.

Lemma started_scan_is_detected_witness :
  (exists res w1,
     setup ctx now 9%nat (db [schedule] [finished_scan]) = (Return res, w1)
     /\ scans w1
        = [finished_scan]
          ++ [new_scan 9%nat "t1" "p1" 7
                       (now + MICROSECONDS_PER_DAY - MICROSECONDS_PER_DAY)]
     /\ res !! "scan_id" = Some (RStr (str_id 9%nat))
     /\ res !! "duplicate" = Some (RBool false))
  /\ (exists res2 w3,
        setup ctx now 10%nat
          (World [schedule]
                 ([finished_scan]
                  ++ [with_state StateChoices.EXECUTING
                        (new_scan 9%nat "t1" "p1" 7
                           (now + MICROSECONDS_PER_DAY - MICROSECONDS_PER_DAY))])
                 [])
        = (Return res2, w3)
        /\ scans w3
           = [finished_scan]
             ++ [with_state StateChoices.EXECUTING
                   (new_scan 9%nat "t1" "p1" 7
                      (now + MICROSECONDS_PER_DAY - MICROSECONDS_PER_DAY))]
        /\ res2 !! "scan_id" = Some (RStr (str_id 9%nat))
        /\ res2 !! "duplicate" = Some (RBool true)).
Proof.
  exact (started_scan_is_detected str_id serializer_data get_next_execution_datetime
           ctx now now 9%nat 10%nat (db [schedule] [finished_scan])
           "t1" "p1" schedule (now + MICROSECONDS_PER_DAY) []
           eq_refl eq_refl eq_refl
           (no_scan_executing_today [finished_scan] eq_refl)
           (no_scan_executing_today [finished_scan] eq_refl)
           (no_scan_reusable [finished_scan] eq_refl)
           eq_refl next_execution_in_range eq_refl).
Defined.

(** A SCHEDULED and an AVAILABLE scan both match: the handler raises. *)
Lemma setup_ambiguous_witness :
  exists e,
    exn_class e = "MultipleObjectsReturned"
    /\ setup ctx now 9%nat (db [schedule] [stale_scan; available_scan])
       = (Raise e,
          World [schedule] [stale_scan; available_scan]
                ([] ++ [Log ERROR ("Error in setup_scheduled_scan_task: "
                                   +:+ str_exn e)])).
Proof.
  exact (setup_ambiguous str_id serializer_data get_next_execution_datetime
           ctx now 9%nat (db [schedule] [stale_scan; available_scan])
           "t1" "p1" schedule (now + MICROSECONDS_PER_DAY)
           stale_scan available_scan []
           eq_refl eq_refl eq_refl
           (no_scan_executing_today [stale_scan; available_scan] eq_refl)
           eq_refl next_execution_in_range eq_refl).
Defined.

End HandlerExtra.

(** ** The management command *)

Module CommandFacts.
Import Py Command.

(** The loop is left by the interrupt, whenever it comes. *)
Lemma sleep_ends_with_interrupt ticks (s : system) :
  sleep_until_interrupt ticks s = (Raise KeyboardInterrupt, s).
Proof.
  induction ticks as [|n IH]; [reflexivity|].
  cbn [sleep_until_interrupt]. unfold bind, ret. exact IH.
Qed.

(** The line written when a phase fails, if the exception is one that
    [except Exception] catches. *)
Lemma failure_line_cases (e : exn) :
  (if is_Exception e
   then [(FAILURE, "Failed to start LittleHorse workers: " +:+ str_exn e)]
   else []) = [] \/
  (if is_Exception e
   then [(FAILURE, "Failed to start LittleHorse workers: " +:+ str_exn e)]
   else []) = [(FAILURE, "Failed to start LittleHorse workers: " +:+ str_exn e)].
Proof. destruct (is_Exception e); auto. Qed.

(** [handle], phase by phase. *)
Lemma handle_phases (register_only : bool) (ticks : nat) (s : system) :
  handle register_only ticks s
  = match Workflows.register_workflows (registrar s) with
    | (Raise e, r) =>
        (Raise e,
         System r (workers s)
           (stdout s
            ++ [(PLAIN, "Starting LittleHorse integration...");
                (PLAIN, "Registering LittleHorse workflows...")]
            ++ (if is_Exception e
                then [(FAILURE, "Failed to start LittleHorse workers: " +:+ str_exn e)]
                else [])))
    | (Return _, r) =>
        if register_only
        then (Return tt,
              System r (workers s)
                (stdout s
                 ++ [(PLAIN, "Starting LittleHorse integration...");
                     (PLAIN, "Registering LittleHorse workflows...");
                     (SUCCESS, "Successfully registered LittleHorse workflows")]))
        else
          match Workers.start_task_workers (workers s) with
          | (Raise e, f) =>
              (Raise e,
               System r f
                 (stdout s
                  ++ [(PLAIN, "Starting LittleHorse integration...");
                      (PLAIN, "Registering LittleHorse workflows...");
                      (SUCCESS, "Successfully registered LittleHorse workflows");
                      (PLAIN, "Starting LittleHorse task workers...")]
                  ++ (if is_Exception e
                      then [(FAILURE,
                             "Failed to start LittleHorse workers: " +:+ str_exn e)]
                      else [])))
          | (Return started, f) =>
              (Return tt,
               System r f
                 (stdout s
                  ++ [(PLAIN, "Starting LittleHorse integration...");
                      (PLAIN, "Registering LittleHorse workflows...");
                      (SUCCESS, "Successfully registered LittleHorse workflows");
                      (PLAIN, "Starting LittleHorse task workers...");
                      (SUCCESS, "Successfully started " +:+ pretty (length started)
                                +:+ " LittleHorse task workers");
                      (PLAIN, "LittleHorse workers are running. Press Ctrl+C to stop.");
                      (PLAIN, String "010"%char "Shutting down LittleHorse workers...")]))
          end
    end.
Proof.
  unfold handle. unfold bind at 1. unfold write at 1.
  unfold try_except_Exception. unfold bind at 1. unfold write at 1.
  unfold bind at 1. unfold register_workflows at 1.
  cbn [registrar workers stdout].
  destruct (Workflows.register_workflows (registrar s)) as [[[]|e] r].
  - unfold bind at 1. unfold write at 1. cbn [registrar workers stdout].
    destruct register_only.
    + unfold ret. rewrite <- !app_assoc. reflexivity.
    + unfold bind at 1. unfold write at 1. unfold bind at 1.
      unfold start_task_workers at 1. cbn [registrar workers stdout].
      destruct (Workers.start_task_workers (workers s)) as [[started|e] f].
      * unfold bind at 1. unfold write at 1. cbn [registrar workers stdout].
        unfold try_except_KeyboardInterrupt. unfold bind at 1. unfold write at 1.
        rewrite sleep_ends_with_interrupt.
        unfold write, KeyboardInterrupt. cbn.
        rewrite <- !app_assoc. reflexivity.
      * destruct (is_Exception e).
        -- unfold bind, write, raise. cbn. rewrite <- !app_assoc. reflexivity.
        -- rewrite <- !app_assoc, !app_nil_r. reflexivity.
  - destruct (is_Exception e).
    + unfold bind, write, raise. cbn. rewrite <- !app_assoc. reflexivity.
    + rewrite <- !app_assoc. reflexivity.
Qed.

(** X13.  With --register-only the command does not touch the workers,
    whatever the engine answers: no start is requested and nothing is
    logged on their side.  Its outcome is the outcome of the registration,
    and it has written its two opening lines followed by the line of
    success, or, for an exception that [except Exception] catches, by the
    line of failure. *)
Theorem register_only_starts_no_worker (ticks : nat) (s s' : system)
    (out : outcome unit) :
  handle true ticks s = (out, s') ->
  workers s' = workers s
  /\ Workflows.register_workflows (registrar s) = (out, registrar s')
  /\ stdout s'
     = stdout s
       ++ [(PLAIN, "Starting LittleHorse integration...");
           (PLAIN, "Registering LittleHorse workflows...")]
       ++ match out with
          | Return _ => [(SUCCESS, "Successfully registered LittleHorse workflows")]
          | Raise e =>
              if is_Exception e
              then [(FAILURE, "Failed to start LittleHorse workers: " +:+ str_exn e)]
              else []
          end.
Proof.
  rewrite handle_phases.
  destruct (Workflows.register_workflows (registrar s)) as [[[]|e] r];
    intros [= <- <-]; cbn [registrar workers stdout]; repeat split; reflexivity.
Qed.

Lemma register_only_starts_no_worker_witness :
  workers (snd (handle true 3
     (System (Workflows.World (Workflows.Engine ∅ [] []) [])
             (Workers.Fleet [] [] [] []) [])))
  = Workers.Fleet [] [] [] [].
Proof.
  exact (proj1 (register_only_starts_no_worker 3
           (System (Workflows.World (Workflows.Engine ∅ [] []) [])
                   (Workers.Fleet [] [] [] []) [])
           (snd (handle true 3
              (System (Workflows.World (Workflows.Engine ∅ [] []) [])
                      (Workers.Fleet [] [] [] []) [])))
           (Return tt) eq_refl)).
Defined.

(** X14.  The command starts workers only on a registered set of
    workflows.  When the registration raises, the command raises the same
    exception and the workers are untouched.  Whenever the workers have
    been touched, the command was not run with --register-only and the
    four definitions are published. *)
Theorem workers_wait_for_registration (register_only : bool) (ticks : nat)
    (s s' : system) (out : outcome unit) :
  handle register_only ticks s = (out, s') ->
  (forall e, fst (Workflows.register_workflows (registrar s)) = Raise e ->
     out = Raise e /\ workers s' = workers s)
  /\ (workers s' <> workers s ->
      register_only = false
      /\ Workflows.published (Workflows.client (registrar s'))
         = Workflows.publish_all Workflows.definitions
             (Workflows.published (Workflows.client (registrar s)))).
Proof.
  rewrite handle_phases.
  destruct (Workflows.register_workflows (registrar s)) as [[[]|e] r] eqn:Hreg.
  - destruct register_only.
    + intros [= <- <-]. cbn [registrar workers fst]. split.
      * intros e He. discriminate He.
      * intros Hne. contradiction Hne. reflexivity.
    + destruct (Workers.start_task_workers (workers s)) as [[started|e] f];
        intros [= <- <-]; cbn [registrar workers fst];
        (split; [intros e' He; discriminate He|]); intros _;
        (split; [reflexivity|]);
        exact (RegistrationExtra.register_workflows_returns _ _ Hreg).
  - intros [= <- <-]. cbn [registrar workers fst]. split.
    + intros e' [= <-]. split; reflexivity.
    + intros Hne. contradiction Hne. reflexivity.
Qed.

Lemma workers_wait_for_registration_witness :
  (Raise (Exn "LHError" "unavailable") : outcome unit)
  = Raise (Exn "LHError" "unavailable")
  /\ workers (snd (handle false 3
        (System (Workflows.World
                   (Workflows.Engine ∅ [] [Some (Exn "LHError" "unavailable")]) [])
                (Workers.Fleet [] [] [] []) [])))
     = Workers.Fleet [] [] [] [].
Proof.
  exact (proj1 (workers_wait_for_registration false 3
           (System (Workflows.World
                      (Workflows.Engine ∅ [] [Some (Exn "LHError" "unavailable")]) [])
                   (Workers.Fleet [] [] [] []) [])
           (snd (handle false 3
              (System (Workflows.World
                         (Workflows.Engine ∅ [] [Some (Exn "LHError" "unavailable")]) [])
                      (Workers.Fleet [] [] [] []) [])))
           (Raise (Exn "LHError" "unavailable")) eq_refl)
           (Exn "LHError" "unavailable") eq_refl).
Defined.

(** X15.  The command only adds lines to its output.  When it returns,
    none of the added lines is a line of failure.  When it raises an
    exception that [except Exception] catches, the last line added is the
    line of failure carrying that exception. *)
Theorem failure_is_reported (register_only : bool) (ticks : nat)
    (s s' : system) (out : outcome unit) :
  handle register_only ticks s = (out, s') ->
  exists lines,
    stdout s' = stdout s ++ lines
    /\ match out with
       | Return _ => Forall (fun l => fst l <> FAILURE) lines
       | Raise e =>
           is_Exception e = true ->
           last lines
           = Some (FAILURE, "Failed to start LittleHorse workers: " +:+ str_exn e)
       end.
Proof.
  rewrite handle_phases.
  destruct (Workflows.register_workflows (registrar s)) as [[[]|e] r].
  - destruct register_only.
    + intros [= <- <-]. cbn [stdout]. eexists. split; [reflexivity|].
      repeat constructor; discriminate.
    + destruct (Workers.start_task_workers (workers s)) as [[started|e] f];
        intros [= <- <-]; cbn [stdout]; eexists; (split; [reflexivity|]).
      * repeat constructor; discriminate.
      * intros ->. reflexivity.
  - intros [= <- <-]. cbn [stdout]. eexists. split; [reflexivity|].
    intros ->. reflexivity.
Qed.

Lemma failure_is_reported_witness :
  exists lines,
    stdout (snd (handle false 0
       (System (Workflows.World (Workflows.Engine ∅ [] []) [])
               (Workers.Fleet [] [] [Some (Exn "OSError" "refused")] []) [])))
    = [] ++ lines
    /\ (is_Exception (Exn "OSError" "refused") = true ->
        last lines
        = Some (FAILURE, "Failed to start LittleHorse workers: "
                         +:+ str_exn (Exn "OSError" "refused"))).
Proof.
  exact (failure_is_reported false 0
           (System (Workflows.World (Workflows.Engine ∅ [] []) [])
                   (Workers.Fleet [] [] [Some (Exn "OSError" "refused")] []) [])
           (snd (handle false 0
              (System (Workflows.World (Workflows.Engine ∅ [] []) [])
                      (Workers.Fleet [] [] [Some (Exn "OSError" "refused")] []) [])))
           (Raise (Exn "OSError" "refused")) eq_refl).
Defined.

(** X16.  With an engine that serves every request, the command run
    without --register-only publishes the four definitions, starts the ten
    workers, reports both, and, once interrupted, writes its closing line
    and returns normally, however long it has been running. *)
Theorem full_run (ticks : nat) (s : system) :
  Workflows.fault_free (registrar s) ->
  Forall (fun o => o = None) (Workers.start_faults (workers s)) ->
  exists s',
    handle false ticks s = (Return tt, s')
    /\ Workflows.published (Workflows.client (registrar s'))
       = Workflows.publish_all Workflows.definitions
           (Workflows.published (Workflows.client (registrar s)))
    /\ Workers.running (workers s')
       = Workers.running (workers s)
         ++ map Workers.task_def_name Workers.task_workers
    /\ stdout s'
       = stdout s
         ++ [(PLAIN, "Starting LittleHorse integration...");
             (PLAIN, "Registering LittleHorse workflows...");
             (SUCCESS, "Successfully registered LittleHorse workflows");
             (PLAIN, "Starting LittleHorse task workers...");
             (SUCCESS, "Successfully started 10 LittleHorse task workers");
             (PLAIN, "LittleHorse workers are running. Press Ctrl+C to stop.");
             (PLAIN, String "010"%char "Shutting down LittleHorse workers...")].
Proof.
  intros Hreg Hstart. eexists. split.
  - rewrite handle_phases.
    rewrite (WorkflowFacts.register_workflows_served _ Hreg).
    unfold Workers.start_task_workers, Workers.start_workers.
    unfold bind at 1. unfold Workers.fleet_log at 1. unfold bind at 1.
    rewrite StartupFacts.start_all_served by exact Hstart.
    unfold ret. reflexivity.
  - cbn [registrar workers stdout Workflows.client Workflows.published
         Workers.running].
    repeat split; reflexivity.
Qed.

Lemma full_run_witness :
  exists s',
    handle false 5
      (System (Workflows.World (Workflows.Engine ∅ [] []) [])
              (Workers.Fleet [] [] [] []) [])
    = (Return tt, s')
    /\ length (Workers.running (workers s')) = 10%nat
    /\ length (stdout s') = 7%nat.
Proof.
  destruct (full_run 5
              (System (Workflows.World (Workflows.Engine ∅ [] []) [])
                      (Workers.Fleet [] [] [] []) [])
              (List.Forall_nil _) (List.Forall_nil _))
    as (s' & Hrun & _ & Hrunning & Hout).
  exists s'. split; [exact Hrun|].
  rewrite Hrunning, Hout. split; reflexivity.
Defined.

End CommandFacts.

(** ** Starting a workflow; the definitions as a whole *)

Module LauncherFacts.
Import Py Workflows Launcher.

Section StartWorkflow.

Context {RunId Value : Type}.
Variable str_run_id : RunId -> string.
Variable run_wf : string -> list (string * Value) -> engine -> outcome RunId.


End StartWorkflow.


(** X18.  The four definitions are closed.  In each of them, every
    binding that reads a workflow variable reads a declared one; every
    binding that reads a node's output, and every handle a barrier waits
    for, refers to a task node placed earlier in the same definition; and
    a spawned thread runs one of the four definitions and is given
    exactly the variables that definition declares, in their order. *)
Theorem definitions_closed (d : string * (WorkflowSpec -> WorkflowSpec))
    (i : nat) (n : node) :
  In d definitions ->
  nth_error (wf_nodes (snd d empty_wf)) i = Some n ->
  (forall k v path, In (k, VarPath v path) (bindings n) ->
     exists decl, In decl (wf_variables (snd d empty_wf)) /\ var_name decl = v)
  /\ (forall k h path, In (k, NodePath h path) (bindings n) ->
        (h < i)%nat
        /\ exists task kwargs,
             nth_error (wf_nodes (snd d empty_wf)) h = Some (ExecuteTask task kwargs))
  /\ (forall handles h, n = WaitForTasks handles -> In h handles ->
        (h < i)%nat
        /\ exists task kwargs,
             nth_error (wf_nodes (snd d empty_wf)) h = Some (ExecuteTask task kwargs))
  /\ (forall thread target inputs, n = SpawnThread thread target inputs ->
        exists f,
          In (target, f) definitions
          /\ map fst inputs = map var_name (wf_variables (f empty_wf))).
Proof.
  intros Hd Hn.
  assert (Hnode : In (fst d, i, n)
            [ ("scan", 0%nat, ExecuteTask "perform-prowler-scan"
                 [("tenant_id", VarPath "tenant_id" "$");
                  ("scan_id", VarPath "scan_id" "$");
                  ("provider_id", VarPath "provider_id" "$");
                  ("checks_to_execute", VarPath "checks_to_execute" "$")]);
              ("scan", 1%nat, ExecuteTask "create-compliance-requirements"
                 [("tenant_id", VarPath "tenant_id" "$");
                  ("scan_id", VarPath "scan_id" "$")]);
              ("scan", 2%nat, ExecuteTask "perform-scan-summary"
                 [("tenant_id", VarPath "tenant_id" "$");
                  ("scan_id", VarPath "scan_id" "$")]);
              ("scan", 3%nat, WaitForTasks [1%nat; 2%nat]);
              ("scan", 4%nat, ExecuteTask "generate-outputs"
                 [("tenant_id", VarPath "tenant_id" "$");
                  ("scan_id", VarPath "scan_id" "$");
                  ("provider_id", VarPath "provider_id" "$")]);
              ("scheduled-scan", 0%nat, ExecuteTask "setup-scheduled-scan"
                 [("tenant_id", VarPath "tenant_id" "$");
                  ("provider_id", VarPath "provider_id" "$")]);
              ("scheduled-scan", 1%nat, SpawnThread "main_scan_thread" "scan"
                 [("tenant_id", VarPath "tenant_id" "$");
                  ("scan_id", NodePath 0 "$.scan_id");
                  ("provider_id", VarPath "provider_id" "$");
                  ("checks_to_execute", Lit (JList []))]);
              ("provider-deletion", 0%nat, ExecuteTask "delete-provider"
                 [("tenant_id", VarPath "tenant_id" "$");
                  ("provider_id", VarPath "provider_id" "$")]);
              ("tenant-deletion", 0%nat, ExecuteTask "delete-tenant"
                 [("tenant_id", VarPath "tenant_id" "$")]) ]
          /\ In d definitions).
  { split; [|exact Hd].
    repeat (destruct Hd as [<- | Hd]); [ | | | | destruct Hd];
      do 6 (try (destruct i as [|i]; cbn in Hn; try discriminate Hn));
      try (injection Hn as <-); cbn; tauto. }
  clear Hn. destruct Hnode as [Hnode Hd'].
  assert (Hdef : d = ("scan", scan_wf) \/ d = ("scheduled-scan", scheduled_scan_wf)
                 \/ d = ("provider-deletion", provider_deletion_wf)
                 \/ d = ("tenant-deletion", tenant_deletion_wf)).
  { cbn in Hd'. intuition auto. }
  clear Hd Hd'.
  destruct Hdef as [-> | [-> | [-> | ->]]]; cbn [fst] in Hnode;
    repeat (destruct Hnode as [Hnode | Hnode];
            [try discriminate Hnode; injection Hnode as <- <-|]);
    try destruct Hnode.
  all: split; [intros k v path Hb; cbn in Hb;
               repeat (destruct Hb as [Hb | Hb];
                       [try discriminate Hb; injection Hb as <- <- <-|]);
               try destruct Hb;
               first [ eexists; split; [left; reflexivity | reflexivity]
                     | eexists; split; [right; left; reflexivity | reflexivity]
                     | eexists; split; [right; right; left; reflexivity | reflexivity]
                     | eexists; split; [right; right; right; left; reflexivity
                                       | reflexivity] ]|].
  all: split; [intros k h path Hb; cbn in Hb;
               repeat (destruct Hb as [Hb | Hb];
                       [try discriminate Hb; injection Hb as <- <- <-|]);
               try destruct Hb;
               (split; [lia | eexists _, _; reflexivity])|].
  all: split; [intros handles h Hw Hh;
               first [ discriminate Hw
                     | injection Hw as <-; cbn in Hh;
                       repeat (destruct Hh as [<- | Hh];
                               [split; [lia | eexists _, _; reflexivity]|]);
                       destruct Hh ]|].
  all: intros thread target inputs Hs;
    first [ discriminate Hs
          | injection Hs as <- <- <-; exists scan_wf;
            (split; [left; reflexivity | reflexivity]) ].
Qed.

Lemma definitions_closed_witness :
  exists f,
    In ("scan", f) definitions
    /\ map fst [("tenant_id", VarPath "tenant_id" "$");
                ("scan_id", NodePath 0 "$.scan_id");
                ("provider_id", VarPath "provider_id" "$");
                ("checks_to_execute", Lit (JList []))]
       = map var_name (wf_variables (f empty_wf)).
Proof.
  exact (proj2 (proj2 (proj2 (definitions_closed
           ("scheduled-scan", scheduled_scan_wf) 1
           (SpawnThread "main_scan_thread" "scan"
              [("tenant_id", VarPath "tenant_id" "$");
               ("scan_id", NodePath 0 "$.scan_id");
               ("provider_id", VarPath "provider_id" "$");
               ("checks_to_execute", Lit (JList []))])
           (or_intror (or_introl eq_refl)) eq_refl)))
           "main_scan_thread" "scan" _ eq_refl).
Defined.

End LauncherFacts.
